(** * CloudScript basic sample: the move-cooldown validator

    A shallow embedding of [processPlayerMove] from [basic_sample.js]
    together with the parts of the platform it talks to:

    - the JavaScript built-ins it calls ([Date.parse],
      [Date.prototype.toUTCString], [JSON.stringify]), as an interface
      ([JSRuntime]) with a reference instance written after ECMA-262;
    - the [server] object of the hosting platform, as explicit state
      passing over a [World] that holds the per-player stores, the
      clock, the trace of API calls and the log.  *)

From Stdlib Require Import ZArith QArith Lia Bool Ascii.
From stdpp Require Import base option gmap strings list fin_maps.

Local Open Scope Z_scope.

(** ** JavaScript numbers

    Only two kinds of Number occur in the script: NaN (the result of
    [Date.parse] on text that is no date, and of any arithmetic on it) and
    finite values.  Finite values are kept as exact rationals.  The one
    comparison the script makes, [(now - lastMoveTime) / 1000 < 15], has
    the same outcome in IEEE-754 doubles as over the rationals: both time
    values are integers below 2^53, rounding is monotone and 15 is
    representable, so the rounded quotient is below 15 exactly when the
    integer difference is below 15000. *)
Module Number.

Inductive t : Type :=
| NaN
| Fin (q : Q).

Definition of_Z (z : Z) : t := Fin (inject_Z z).

Definition sub (a b : t) : t :=
  match a, b with
  | Fin x, Fin y => Fin (x - y)%Q
  | _, _ => NaN
  end.

Definition div (a b : t) : t :=
  match a, b with
  | Fin x, Fin y => Fin (x / y)%Q
  | _, _ => NaN
  end.

(** [a < b]: false as soon as one side is NaN. *)
Definition ltb (a b : t) : bool :=
  match a, b with
  | Fin x, Fin y => match (x ?= y)%Q with Lt => true | _ => false end
  | _, _ => false
  end.

End Number.

(** ** Dates, after ECMA-262 (section "Date Objects")

    Time values are integers, milliseconds since the epoch. *)
Module ES.

Definition msPerSecond : Z := 1000.
Definition msPerMinute : Z := 60000.
Definition msPerHour : Z := 3600000.
Definition msPerDay : Z := 86400000.

(** Largest magnitude of a time value. *)
Definition maxTime : Z := 8640000000000000.

Definition Day (t : Z) : Z := t / msPerDay.

Definition DaysInYear (y : Z) : Z :=
  if negb (y mod 4 =? 0) then 365
  else if negb (y mod 100 =? 0) then 366
  else if negb (y mod 400 =? 0) then 365
  else 366.

Definition DayFromYear (y : Z) : Z :=
  365 * (y - 1970) + (y - 1969) / 4 - (y - 1901) / 100 + (y - 1601) / 400.

Definition TimeFromYear (y : Z) : Z := msPerDay * DayFromYear y.

(** [YearFromTime t] is the largest [y] with [TimeFromYear y <= t].  It
    lies between [1970 + d/366] and [1970 + d/365] (in some order) for
    [d = Day t]; the search walks up from the lower end. *)
Fixpoint year_search (fuel : nat) (d y : Z) : Z :=
  match fuel with
  | O => y
  | S fuel' =>
      if DayFromYear (y + 1) <=? d then year_search fuel' d (y + 1) else y
  end.

Definition YearFromDay (d : Z) : Z :=
  let lo := Z.min (d / 365) (d / 366) in
  let hi := Z.max (d / 365) (d / 366) in
  year_search (Z.to_nat (hi - lo)) d (1970 + lo).

Definition YearFromTime (t : Z) : Z := YearFromDay (Day t).

Definition InLeapYear (t : Z) : Z :=
  if DaysInYear (YearFromTime t) =? 366 then 1 else 0.

Definition DayWithinYear (t : Z) : Z :=
  Day t - DayFromYear (YearFromTime t).

(** Number of the first day of month [m] (0 = January) within a year,
    [leap] being 1 in a leap year and 0 otherwise. *)
Definition firstDayOfMonth (m leap : Z) : Z :=
  match m with
  | 0 => 0
  | 1 => 31
  | 2 => 59 + leap
  | 3 => 90 + leap
  | 4 => 120 + leap
  | 5 => 151 + leap
  | 6 => 181 + leap
  | 7 => 212 + leap
  | 8 => 243 + leap
  | 9 => 273 + leap
  | 10 => 304 + leap
  | 11 => 334 + leap
  | _ => 365 + leap
  end.

Definition MonthFromTime (t : Z) : Z :=
  let d := DayWithinYear t in
  let leap := InLeapYear t in
  if d <? 31 then 0
  else if d <? 59 + leap then 1
  else if d <? 90 + leap then 2
  else if d <? 120 + leap then 3
  else if d <? 151 + leap then 4
  else if d <? 181 + leap then 5
  else if d <? 212 + leap then 6
  else if d <? 243 + leap then 7
  else if d <? 273 + leap then 8
  else if d <? 304 + leap then 9
  else if d <? 334 + leap then 10
  else 11.

Definition DateFromTime (t : Z) : Z :=
  DayWithinYear t - firstDayOfMonth (MonthFromTime t) (InLeapYear t) + 1.

Definition WeekDay (t : Z) : Z := (Day t + 4) mod 7.

Definition HourFromTime (t : Z) : Z := (t / msPerHour) mod 24.
Definition MinFromTime (t : Z) : Z := (t / msPerMinute) mod 60.
Definition SecFromTime (t : Z) : Z := (t / msPerSecond) mod 60.

Definition MakeTime (hour min sec ms : Z) : Z :=
  hour * msPerHour + min * msPerMinute + sec * msPerSecond + ms.

(** The day number of the given date; [month] is brought into 0..11 by
    carrying into the year. *)
Definition MakeDay (year month date : Z) : Z :=
  let ym := year + month / 12 in
  let mn := month mod 12 in
  let leap := if DaysInYear ym =? 366 then 1 else 0 in
  DayFromYear ym + firstDayOfMonth mn leap + date - 1.

Definition MakeDate (day time : Z) : Z := day * msPerDay + time.

(** [None] stands for NaN. *)
Definition TimeClip (t : Z) : option Z :=
  if Z.abs t <=? maxTime then Some t else None.

(** *** Decimal numerals *)

Definition digitChar (k : Z) : ascii := ascii_of_nat (Z.to_nat (48 + k)).

Definition digitValue (c : ascii) : option Z :=
  let n := Z.of_nat (nat_of_ascii c) in
  if (48 <=? n) && (n <=? 57) then Some (n - 48) else None.

(** The [w] low decimal digits of [n], most significant first. *)
Fixpoint decimalDigits (w : nat) (n : Z) : string :=
  match w with
  | O => ""
  | S w' => decimalDigits w' (n / 10) +:+ String (digitChar (n mod 10)) ""
  end.

Fixpoint countDigits (fuel : nat) (n : Z) : nat :=
  match fuel with
  | O => 1%nat
  | S fuel' => if n <? 10 then 1%nat else S (countDigits fuel' (n / 10))
  end.

(** Length of the decimal representation of [n >= 0]. *)
Definition numDigits (n : Z) : nat := countDigits (Z.to_nat (Z.log2 n)) n.

(** The decimal representation of [n >= 0], left-padded with zeros to
    [minLength] characters. *)
Definition ToZeroPaddedDecimalString (n : Z) (minLength : nat) : string :=
  decimalDigits (Nat.max minLength (numDigits n)) n.

(** *** [Date.prototype.toUTCString] *)

Definition weekdays : list string :=
  ["Sun"; "Mon"; "Tue"; "Wed"; "Thu"; "Fri"; "Sat"].

Definition months : list string :=
  ["Jan"; "Feb"; "Mar"; "Apr"; "May"; "Jun";
   "Jul"; "Aug"; "Sep"; "Oct"; "Nov"; "Dec"].

Definition nameOf (names : list string) (i : Z) : string :=
  default "" (names !! Z.to_nat i).

Definition TimeString (tv : Z) : string :=
  ToZeroPaddedDecimalString (HourFromTime tv) 2 +:+ ":" +:+
  ToZeroPaddedDecimalString (MinFromTime tv) 2 +:+ ":" +:+
  ToZeroPaddedDecimalString (SecFromTime tv) 2 +:+ " GMT".

(** The argument is the time value of the Date object, [None] for an
    invalid date. *)
Definition toUTCString (tv : option Z) : string :=
  match tv with
  | None => "Invalid Date"
  | Some tv =>
      let weekday := nameOf weekdays (WeekDay tv) in
      let month := nameOf months (MonthFromTime tv) in
      let day := ToZeroPaddedDecimalString (DateFromTime tv) 2 in
      let yv := YearFromTime tv in
      let yearSign := if 0 <=? yv then "" else "-" in
      let paddedYear := ToZeroPaddedDecimalString (Z.abs yv) 4 in
      weekday +:+ ", " +:+ day +:+ " " +:+ month +:+ " " +:+
      yearSign +:+ paddedYear +:+ " " +:+ TimeString tv
  end.

(** *** [Date.parse]

    ECMA-262 fixes what [Date.parse] returns on the strings that
    [toISOString], [toString] and [toUTCString] produce and leaves every
    other input to the implementation.  The script only ever stores
    [toUTCString] output, so this parser reads exactly that format,
    ["Www, dd Mmm yyyy hh:mm:ss GMT"], and answers NaN ([None]) to all
    other text.  The name of the weekday is read and not compared with the
    date; the day of the month may be any of 1..31. *)

Fixpoint stripPrefix (p s : string) : option string :=
  match p, s with
  | EmptyString, _ => Some s
  | String a p', String b s' =>
      if decide (a = b) then stripPrefix p' s' else None
  | String _ _, EmptyString => None
  end.

Fixpoint readDigits (s : string) (acc : Z) : Z * string :=
  match s with
  | String c s' =>
      match digitValue c with
      | Some d => readDigits s' (10 * acc + d)
      | None => (acc, s)
      end
  | EmptyString => (acc, s)
  end.

(** A non-empty run of digits and what follows it. *)
Definition readNumber (s : string) : option (Z * string) :=
  match s with
  | String c _ =>
      match digitValue c with
      | Some _ => Some (readDigits s 0)
      | None => None
      end
  | EmptyString => None
  end.

(** The index (counted from [i]) of the first name that [s] starts with. *)
Fixpoint readName (names : list string) (i : Z) (s : string)
  : option (Z * string) :=
  match names with
  | [] => None
  | n :: names' =>
      match stripPrefix n s with
      | Some rest => Some (i, rest)
      | None => readName names' (i + 1) s
      end
  end.

Definition parseUTCString (s : string) : option Z :=
  '(_, s) ← readName weekdays 0 s;
  s ← stripPrefix ", " s;
  '(day, s) ← readNumber s;
  s ← stripPrefix " " s;
  '(month, s) ← readName months 0 s;
  s ← stripPrefix " " s;
  '(year, s) ← readNumber s;
  s ← stripPrefix " " s;
  '(hour, s) ← readNumber s;
  s ← stripPrefix ":" s;
  '(minute, s) ← readNumber s;
  s ← stripPrefix ":" s;
  '(second, s) ← readNumber s;
  s ← stripPrefix " GMT" s;
  if decide (s = "") then
    if (1 <=? day) && (day <=? 31) && (hour <=? 23) && (minute <=? 59)
       && (second <=? 59)
    then TimeClip (MakeDate (MakeDay year month day)
                            (MakeTime hour minute second 0))
    else None
  else None.

Definition parse (s : string) : Number.t :=
  match parseUTCString s with
  | Some tv => Number.of_Z tv
  | None => Number.NaN
  end.

End ES.

(** ** JSON values and [JSON.stringify]

    The move payload reaches the script as an already parsed JSON value
    (the platform decodes the request); numbers are restricted to
    integers here. *)
#[warnings="-register-all"]
Inductive JSValue : Type :=
| JSNull
| JSBool (b : bool)
| JSNum (n : Z)
| JSString (s : string)
| JSArray (items : list JSValue)
| JSObject (fields : list (string * JSValue)).

Module JSON.

Definition hexChar (k : Z) : ascii :=
  if k <? 10 then ES.digitChar k else ascii_of_nat (Z.to_nat (87 + k)).

(** One character of a quoted string (QuoteJSONString). *)
Definition quoteChar (c : ascii) : string :=
  let n := Z.of_nat (nat_of_ascii c) in
  if n =? 8 then "\b"
  else if n =? 9 then "\t"
  else if n =? 10 then "\n"
  else if n =? 12 then "\f"
  else if n =? 13 then "\r"
  else if n =? 34 then String "\" (String c "")
  else if n =? 92 then "\\"
  else if n <? 32 then
    "\u00" +:+ String (hexChar (n / 16)) (String (hexChar (n mod 16)) "")
  else String c "".

Fixpoint quoteChars (s : string) : string :=
  match s with
  | EmptyString => ""
  | String c s' => quoteChar c +:+ quoteChars s'
  end.

Definition quote (s : string) : string :=
  String "034" (quoteChars s +:+ String "034" "").

Definition numberString (n : Z) : string :=
  (if n <? 0 then "-" else "") +:+ ES.ToZeroPaddedDecimalString (Z.abs n) 1.

Definition joinWith (sep : string) (parts : list string) : string :=
  match parts with
  | [] => ""
  | p :: ps => foldl (λ acc q, acc +:+ sep +:+ q) p ps
  end.

Fixpoint stringify (v : JSValue) : string :=
  match v with
  | JSNull => "null"
  | JSBool b => if b then "true" else "false"
  | JSNum n => numberString n
  | JSString s => quote s
  | JSArray items =>
      "[" +:+ joinWith "," (map stringify items) +:+ "]"
  | JSObject fields =>
      "{" +:+
      joinWith "," (map (λ kv, quote kv.1 +:+ ":" +:+ stringify kv.2) fields)
      +:+ "}"
  end.

End JSON.

(** ** The JavaScript built-ins the script relies on *)
Class JSRuntime : Type := {
  (** [Date.parse(text)] *)
  Date_parse : string → Number.t;
  (** [new Date(tv).toUTCString()] *)
  Date_toUTCString : Z → string;
  (** [JSON.stringify(value)] *)
  JSON_stringify : JSValue → string;
}.

(** The built-ins as ECMA-262 describes them. *)
Definition reference_runtime : JSRuntime := {|
  Date_parse := ES.parse;
  Date_toUTCString tv := ES.toUTCString (ES.TimeClip tv);
  JSON_stringify := JSON.stringify;
|}.

(** ** The hosting platform

    The script runs against the platform's [server] object, reads the
    ambient [currentPlayerId] and the clock, and writes to [log].  All of
    this is the [World]. *)

Record Statistic : Type := {
  StatisticName : string;
  Value : Z;
}.

(** A request sent to the platform. *)
Inductive ApiCall : Type :=
| ApiGetUserInternalData (PlayFabId : string) (Keys : list string)
| ApiGetPlayerStatistics (PlayFabId : string)
| ApiUpdatePlayerStatistics (PlayFabId : string)
    (Statistics : list Statistic)
| ApiUpdateUserInternalData (PlayFabId : string)
    (Data : list (string * string)).

(** The two messages [processPlayerMove] logs, kept as the values they are
    built from rather than as rendered text. *)
Inductive LogMessage : Type :=
| MsgLastMoveTime (lastMoveTime now timeSinceLastMoveInSeconds : Number.t)
| MsgInvalidMove
    (timeSinceLastMoveInSeconds playerMoveCooldownInSeconds : Number.t).

Inductive LogEntry : Type :=
| LogDebug (m : LogMessage)
| LogError (m : LogMessage).

Record World : Type := {
  (** what [Date.now()] returns *)
  clock : Z;
  (** the player on whose behalf the script runs *)
  currentPlayerId : string;
  (** per player: internal data, key to value *)
  userInternalData : gmap string (gmap string string);
  (** per player: the statistics, in the order the platform lists them *)
  playerStatistics : gmap string (list Statistic);
  (** the requests the platform answers with an error *)
  fails : ApiCall → bool;
  (** every request sent so far, oldest first *)
  calls : list ApiCall;
  (** everything logged so far, oldest first *)
  logged : list LogEntry;
}.

Definition with_userInternalData (d : gmap string (gmap string string))
    (w : World) : World :=
  {| clock := clock w; currentPlayerId := currentPlayerId w;
     userInternalData := d; playerStatistics := playerStatistics w;
     fails := fails w; calls := calls w; logged := logged w |}.

Definition with_playerStatistics (s : gmap string (list Statistic))
    (w : World) : World :=
  {| clock := clock w; currentPlayerId := currentPlayerId w;
     userInternalData := userInternalData w; playerStatistics := s;
     fails := fails w; calls := calls w; logged := logged w |}.

Definition with_calls (c : list ApiCall) (w : World) : World :=
  {| clock := clock w; currentPlayerId := currentPlayerId w;
     userInternalData := userInternalData w;
     playerStatistics := playerStatistics w;
     fails := fails w; calls := c; logged := logged w |}.

Definition with_logged (l : list LogEntry) (w : World) : World :=
  {| clock := clock w; currentPlayerId := currentPlayerId w;
     userInternalData := userInternalData w;
     playerStatistics := playerStatistics w;
     fails := fails w; calls := calls w; logged := l |}.

Definition with_clock (t : Z) (w : World) : World :=
  {| clock := t; currentPlayerId := currentPlayerId w;
     userInternalData := userInternalData w;
     playerStatistics := playerStatistics w;
     fails := fails w; calls := calls w; logged := logged w |}.

(** The internal data and the statistics of one player. *)
Definition dataOf (w : World) (id : string) : gmap string string :=
  default ∅ (userInternalData w !! id).

Definition statisticsOf (w : World) (id : string) : list Statistic :=
  default [] (playerStatistics w !! id).

(** *** Running a script

    A server call that fails throws (compare the [try]/[catch] around
    [server.AddFriend] in [handlers.AddFriendToPlayer]); nothing in
    [processPlayerMove] catches, so the exception ends the call. *)
Inductive Exception : Type :=
| ApiError (request : ApiCall).

Inductive Completion (A : Type) : Type :=
| Normal (a : A)
| Throw (e : Exception).
Arguments Normal {A} a.
Arguments Throw {A} e.

Definition Script (A : Type) : Type := World → Completion A * World.

#[export] Instance Script_ret : MRet Script := λ A a w, (Normal a, w).

#[export] Instance Script_bind : MBind Script := λ A B k m w,
  match m w with
  | (Normal a, w') => k a w'
  | (Throw e, w') => (Throw e, w')
  end.

(** Reads a part of the world. *)
Definition global {A : Type} (f : World → A) : Script A :=
  λ w, (Normal (f w), w).

(** Changes the world. *)
Definition change (f : World → World) : Script unit :=
  λ w, (Normal tt, f w).

Definition Date_now : Script Z := global clock.

Module log.
Definition debug (m : LogMessage) : Script unit :=
  change (λ w, with_logged (logged w ++ [LogDebug m]) w).
Definition error (m : LogMessage) : Script unit :=
  change (λ w, with_logged (logged w ++ [LogError m]) w).
End log.

(** *** The [server] object

    The platform's API is not part of the script; its four functions are
    modelled from section 6 of the specification (External Interfaces):
    reads return what is stored, absent keys and statistics included, and
    writes succeed or fail.  Every function sends its request, which the
    platform either refuses (the function throws and the stores stay as
    they are) or carries out as a whole. *)
Module server.

Definition send (request : ApiCall) : Script unit :=
  λ w,
    let w' := with_calls (calls w ++ [request]) w in
    if fails w request then (Throw (ApiError request), w')
    else (Normal tt, w').

(** Modelled from the spec: [GetPlayerData(playerId, keys)], a mapping from
    key to value that may lack keys.  The requested keys that the player
    has, with their values (the [Data] of the result; of each record only
    [Value] is kept). *)
Definition GetUserInternalData (PlayFabId : string) (Keys : list string)
  : Script (gmap string string) :=
  send (ApiGetUserInternalData PlayFabId Keys);;
  stored ← global (λ w, dataOf w PlayFabId);
  mret (list_to_map (omap (λ k, v ← stored !! k; Some (k, v)) Keys)).

(** Modelled from the spec: [GetPlayerStatistic(playerId, name)], here for
    all names at once as the script calls it.  The [Statistics] of the
    result; a statistic the player does not have is not listed. *)
Definition GetPlayerStatistics (PlayFabId : string)
  : Script (list Statistic) :=
  send (ApiGetPlayerStatistics PlayFabId);;
  global (λ w, statisticsOf w PlayFabId).

(** Sets the value of a statistic, adding it when the player has none of
    that name. *)
Fixpoint upsert (s : Statistic) (l : list Statistic) : list Statistic :=
  match l with
  | [] => [s]
  | x :: l' =>
      if decide (StatisticName x = StatisticName s) then s :: l'
      else x :: upsert s l'
  end.

(** Modelled from the spec: [SetPlayerStatistic(playerId, name, value)],
    success or failure. *)
Definition UpdatePlayerStatistics (PlayFabId : string)
    (Statistics : list Statistic) : Script unit :=
  send (ApiUpdatePlayerStatistics PlayFabId Statistics);;
  change (λ w,
    let updated :=
      foldl (λ l s, upsert s l) (statisticsOf w PlayFabId) Statistics in
    with_playerStatistics (<[PlayFabId := updated]> (playerStatistics w)) w).

(** Modelled from the spec: [SetPlayerData(playerId, mapping)], success or
    failure. *)
Definition UpdateUserInternalData (PlayFabId : string)
    (Data : list (string * string)) : Script unit :=
  send (ApiUpdateUserInternalData PlayFabId Data);;
  change (λ w,
    let updated :=
      foldl (λ m kv, <[kv.1 := kv.2]> m) (dataOf w PlayFabId) Data in
    with_userInternalData (<[PlayFabId := updated]> (userInternalData w)) w).

End server.

(** ** The script *)
Section Script.

Context {runtime : JSRuntime}.

(** [(now - lastMoveTime) / 1000], line 185. *)
Definition timeSinceLastMoveInSeconds (now : Z) (lastMoveTime : Number.t)
  : Number.t :=
  Number.div (Number.sub (Number.of_Z now) lastMoveTime) (Number.of_Z 1000).

(** Lines 194-217 of [processPlayerMove]: what the function does once the
    cooldown check has not returned [false]. *)
Definition processPlayerMove_accept (now : Z) (currentPlayerId : string)
    (playerMove : JSValue) : Script bool :=
  playerStats ← server.GetPlayerStatistics currentPlayerId;
  let movesMade := 0 in
  let movesMade :=
    foldl (λ movesMade stat,
             if decide (StatisticName stat = "") then Value stat
             else movesMade)
          movesMade playerStats in
  let movesMade := movesMade + 1 in
  let request :=
    [ {| StatisticName := "movesMade"; Value := movesMade |} ] in
  server.UpdatePlayerStatistics currentPlayerId request;;
  server.UpdateUserInternalData currentPlayerId
    [ ("last_move_timestamp", Date_toUTCString now);
      ("last_move", JSON_stringify playerMove) ];;
  mret true.

(** [processPlayerMove], lines 172-218. *)
Definition processPlayerMove (playerMove : JSValue) : Script bool :=
  now ← Date_now;
  let playerMoveCooldownInSeconds := Number.of_Z 15 in
  currentPlayerId ← global currentPlayerId;
  playerData ← server.GetUserInternalData currentPlayerId
                 ["last_move_timestamp"];
  let lastMoveTimestampSetting := playerData !! "last_move_timestamp" in
  match lastMoveTimestampSetting with
  | Some lastMoveTimestampSetting_Value =>
      let lastMoveTime := Date_parse lastMoveTimestampSetting_Value in
      let timeSinceLastMoveInSeconds :=
        timeSinceLastMoveInSeconds now lastMoveTime in
      log.debug (MsgLastMoveTime lastMoveTime (Number.of_Z now)
                                 timeSinceLastMoveInSeconds);;
      if Number.ltb timeSinceLastMoveInSeconds playerMoveCooldownInSeconds
      then
        log.error (MsgInvalidMove timeSinceLastMoveInSeconds
                                  playerMoveCooldownInSeconds);;
        mret false
      else processPlayerMove_accept now currentPlayerId playerMove
  | None => processPlayerMove_accept now currentPlayerId playerMove
  end.

(** *** The requests of one call, and what a world keeps of the current
    player *)

Definition readRequest (w : World) : ApiCall :=
  ApiGetUserInternalData (currentPlayerId w) ["last_move_timestamp"].

Definition statisticsRequest (w : World) : ApiCall :=
  ApiGetPlayerStatistics (currentPlayerId w).

(** The value the script computes for [movesMade]. *)
Definition movesMadeToWrite (w : World) : Z :=
  foldl (λ movesMade stat,
           if decide (StatisticName stat = "") then Value stat
           else movesMade)
        0 (statisticsOf w (currentPlayerId w)) + 1.

Definition statisticsWrite (w : World) : ApiCall :=
  ApiUpdatePlayerStatistics (currentPlayerId w)
    [ {| StatisticName := "movesMade"; Value := movesMadeToWrite w |} ].

Definition dataWrite (playerMove : JSValue) (w : World) : ApiCall :=
  ApiUpdateUserInternalData (currentPlayerId w)
    [ ("last_move_timestamp", Date_toUTCString (clock w));
      ("last_move", JSON_stringify playerMove) ].

End Script.

Definition isWrite (c : ApiCall) : bool :=
  match c with
  | ApiUpdatePlayerStatistics _ _ | ApiUpdateUserInternalData _ _ => true
  | _ => false
  end.

(** The world after request [c] has gone out. *)
Definition sent (c : ApiCall) (w : World) : World :=
  with_calls (calls w ++ [c]) w.

Definition logging (entries : list LogEntry) (w : World) : World :=
  with_logged (logged w ++ entries) w.

(** The requests sent since world [w]. *)
Definition callsSince (w w' : World) : list ApiCall :=
  drop (length (calls w)) (calls w').

Definition lastMoveTimestampOf (w : World) : option string :=
  dataOf w (currentPlayerId w) !! "last_move_timestamp".

Definition lastMoveOf (w : World) : option string :=
  dataOf w (currentPlayerId w) !! "last_move".

(** The value of the first statistic called [name]. *)
Definition statisticValue (name : string) (l : list Statistic) : option Z :=
  Value <$> (snd <$> list_find (λ s, StatisticName s = name) l).

Definition movesMadeOf (w : World) : option Z :=
  statisticValue "movesMade" (statisticsOf w (currentPlayerId w)).

(** The platform carries out every request. *)
Definition reliable (w : World) : Prop := ∀ c, fails w c = false.

(** Elapsed seconds between time value [last] and [now]. *)
Definition elapsedSeconds (now : Z) (last : Q) : Q :=
  (inject_Z now - last) / inject_Z 1000.

(** *** The decision, in the words of the specification

    "If a prior [lastMoveTimestamp] exists, compute [elapsed = now -
    lastMoveTimestamp] (seconds). If [elapsed < cooldownSeconds], reject";
    a timestamp that is no date counts as no prior move. *)
Definition moveAllowed (parse : string → Number.t)
    (now : Z) (lastMoveTimestamp : option string) (cooldownSeconds : Z)
  : bool :=
  match lastMoveTimestamp with
  | None => true
  | Some text =>
      match parse text with
      | Number.NaN => true
      | Number.Fin last =>
          if Qlt_le_dec (elapsedSeconds now last) (inject_Z cooldownSeconds)
          then false else true
      end
  end.

(** The world once the statistics write has been carried out. *)
Definition statisticsWritten (value : Z) (w : World) : World :=
  let id := currentPlayerId w in
  let updated :=
    server.upsert {| StatisticName := "movesMade"; Value := value |}
                  (statisticsOf w id) in
  with_playerStatistics (<[id := updated]> (playerStatistics w)) w.

(** The world once the data write has been carried out. *)
Definition dataWritten (timestamp move : string) (w : World) : World :=
  let id := currentPlayerId w in
  let updated :=
    <["last_move" := move]>
      (<["last_move_timestamp" := timestamp]> (dataOf w id)) in
  with_userInternalData (<[id := updated]> (userInternalData w)) w.

(** *** The cooldown check, read off a world

    What lines 183-192 find and log in world [w], for the current player. *)
Section Check.

Context {runtime : JSRuntime}.

(** The check returns [false]. *)
Definition tooSoon (w : World) : bool :=
  match lastMoveTimestampOf w with
  | Some text =>
      Number.ltb (timeSinceLastMoveInSeconds (clock w) (Date_parse text))
                 (Number.of_Z 15)
  | None => false
  end.

Definition cooldownLog (w : World) : list LogEntry :=
  match lastMoveTimestampOf w with
  | Some text =>
      let lastMoveTime := Date_parse text in
      let elapsed := timeSinceLastMoveInSeconds (clock w) lastMoveTime in
      LogDebug (MsgLastMoveTime lastMoveTime (Number.of_Z (clock w)) elapsed)
      :: (if Number.ltb elapsed (Number.of_Z 15)
          then [LogError (MsgInvalidMove elapsed (Number.of_Z 15))]
          else [])
  | None => []
  end.

(** The world once the read has been answered and the check made. *)
Definition checked (w : World) : World :=
  logging (cooldownLog w) (sent (readRequest w) w).

End Check.

(** The world in which the current player has no [last_move_timestamp]. *)
Definition forgetLastMoveTimestamp (w : World) : World :=
  let id := currentPlayerId w in
  with_userInternalData
    (<[id := delete "last_move_timestamp" (dataOf w id)]>
       (userInternalData w)) w.

(** ** Concrete worlds

    Player ["P"], a platform that carries out every request unless said
    otherwise, and the instant [T0] = Sun, 01 Nov 2026 23:54:00 GMT. *)
Module Scenario.

Definition T0 : Z := 1793577240000.

Definition move : JSValue := JSObject [("dir", JSString "N")].
Definition otherMove : JSValue :=
  JSObject [("dir", JSString "S"); ("steps", JSNum 3)].

Definition carriesOutAll : ApiCall → bool := λ _, false.

Definition refusesAll : ApiCall → bool := λ _, true.

Definition refusesDataWrite : ApiCall → bool := λ c,
  match c with
  | ApiUpdateUserInternalData _ _ => true
  | _ => false
  end.

(** A player who has never moved. *)
Definition newPlayer (now : Z) : World := {|
  clock := now;
  currentPlayerId := "P";
  userInternalData := ∅;
  playerStatistics := ∅;
  fails := carriesOutAll;
  calls := [];
  logged := [];
|}.

(** A player whose last move was accepted at [T0] and who has made five
    moves so far. *)
Definition returningPlayer (now : Z) : World := {|
  clock := now;
  currentPlayerId := "P";
  userInternalData :=
    {[ "P" := {[ "last_move_timestamp" := "Sun, 01 Nov 2026 23:54:00 GMT";
                 "last_move" := "{}" ]} ]};
  playerStatistics :=
    {[ "P" := [ {| StatisticName := "Level"; Value := 2 |};
                {| StatisticName := "movesMade"; Value := 5 |} ] ]};
  fails := carriesOutAll;
  calls := [];
  logged := [];
|}.

(** A player whose stored timestamp is no date. *)
Definition garbledPlayer (now : Z) : World := {|
  clock := now;
  currentPlayerId := "P";
  userInternalData := {[ "P" := {[ "last_move_timestamp" := "yesterday" ]} ]};
  playerStatistics := ∅;
  fails := carriesOutAll;
  calls := [];
  logged := [];
|}.

(** A new player against a platform that refuses the data write. *)
Definition dataWriteRefused (now : Z) : World := {|
  clock := now;
  currentPlayerId := "P";
  userInternalData := ∅;
  playerStatistics := ∅;
  fails := refusesDataWrite;
  calls := [];
  logged := [];
|}.

(** A call without a player: the id is empty and the platform refuses
    every request made for it. *)
Definition emptyPlayerId (now : Z) : World := {|
  clock := now;
  currentPlayerId := "";
  userInternalData := ∅;
  playerStatistics := ∅;
  fails := refusesAll;
  calls := [];
  logged := [];
|}.

(** The four calls of the specification's scenarios 1 to 4, a call
    against a garbled timestamp, one cut short by the platform, and one
    without a player. *)
Definition storedT0 : string := "Sun, 01 Nov 2026 23:54:00 GMT".
Definition firstCall : World := newPlayer T0.
Definition earlyCall : World := returningPlayer (T0 + 10000).
Definition boundaryCall : World := returningPlayer (T0 + 15000).
Definition lateCall : World := returningPlayer (T0 + 20000).
Definition garbledCall : World := garbledPlayer T0.
Definition interruptedCall : World := dataWriteRefused T0.
Definition anonymousCall : World := emptyPlayerId T0.

(** A call with the empty id against a platform that carries out whatever
    it is asked. *)
Definition lenientCall : World := {|
  clock := T0;
  currentPlayerId := "";
  userInternalData := ∅;
  playerStatistics := ∅;
  fails := carriesOutAll;
  calls := [];
  logged := [];
|}.

(** A first call 999 ms into a second, and the instant 14001 ms later. *)
Definition lateInSecond : World := newPlayer (T0 + 999).
Definition soonAfter : Z := T0 + 15000.

End Scenario.

(** * The handlers around the validator

    The handlers of [basic_sample.js] that reach [processPlayerMove] or
    work on the same two stores. *)

(** ** JavaScript values as the handlers use them

    A handler's [args] is a JSON value or [undefined] ([None]). *)
Module JS.

(** The own property [name] of an object made from JSON; of two members
    with the same name the later one counts. *)
Fixpoint field (name : string) (fields : list (string * JSValue))
  : option JSValue :=
  match fields with
  | [] => None
  | (k, v) :: rest =>
      match field name rest with
      | Some later => Some later
      | None => if decide (k = name) then Some v else None
      end
  end.

(** [value.name] for the property names the handlers use, none of which
    is ["length"], an index, or a name that values inherit: the member of
    an object, [undefined] on any other value that has properties at all,
    and no result ([None], a TypeError) on [undefined] and [null]. *)
Definition get (name : string) (value : option JSValue)
  : option (option JSValue) :=
  match value with
  | None | Some JSNull => None
  | Some (JSObject fields) => Some (field name fields)
  | Some _ => Some None
  end.

(** ToBoolean. *)
Definition truthy (value : option JSValue) : bool :=
  match value with
  | None | Some JSNull => false
  | Some (JSBool b) => b
  | Some (JSNum n) => negb (n =? 0)
  | Some (JSString s) => negb (bool_decide (s = ""))
  | Some (JSArray _) | Some (JSObject _) => true
  end.

(** *** The text of a number

    A JSON value holds a number as the integer that was written.  The
    Number it denotes is the nearest one, and the text of that Number is
    the shortest decimal that denotes it (Number::toString, radix 10): the
    digits of the integer below [2^53], rounded digits followed by zeros
    up to 21 digits, and a significand with an exponent from [1e+21] on. *)

(** The Number nearest to the integer [a >= 0]: [a] itself below [2^53],
    else [a] rounded to 53 significant bits, a tie going to the even
    significand.  A result of [2^1024] or more stands for Infinity. *)
Definition nearestNumber (a : Z) : Z :=
  if a <? 2 ^ 53 then a
  else
    let e := Z.log2 a - 52 in
    let q := a / 2 ^ e in
    let r := a mod 2 ^ e in
    let half := 2 ^ (e - 1) in
    let q := if r <? half then q
             else if half <? r then q + 1
             else if Z.even q then q else q + 1 in
    q * 2 ^ e.

(** The integer [s * 10^(n-k)] of Number::toString for the Number [v]:
    the multiple of the largest power of ten [p], from the power of [v]'s
    first digit downwards, that denotes [v]; of the two multiples next to
    [v] the nearer one, and of two equally near ones the one with [s]
    even. *)
Fixpoint shortest (fuel : nat) (v p : Z) : Z :=
  match fuel with
  | O => v
  | S fuel' =>
      let s := v / p in
      let below := s * p in
      let above := (s + 1) * p in
      let isBelow := nearestNumber below =? v in
      let isAbove := nearestNumber above =? v in
      if isBelow && isAbove then
        if v - below <? above - v then below
        else if above - v <? v - below then above
        else if Z.even s then below else above
      else if isBelow then below
      else if isAbove then above
      else shortest fuel' v (p / 10)
  end.

(** [c] without its zeros at the end. *)
Fixpoint significand (fuel : nat) (c : Z) : Z :=
  match fuel with
  | O => c
  | S fuel' => if c mod 10 =? 0 then significand fuel' (c / 10) else c
  end.

Definition decimal (a : Z) : string := ES.ToZeroPaddedDecimalString a 1.

(** Number::toString of a finite Number [v >= 2^53]. *)
Definition positiveText (v : Z) : string :=
  let digits := ES.numDigits v in
  let c := shortest digits v (10 ^ (Z.of_nat digits - 1)) in
  let n := ES.numDigits c in
  if (n <=? 21)%nat then decimal c
  else
    match decimal (significand n c) with
    | String first "" =>
        String first "" +:+ "e+" +:+ decimal (Z.of_nat n - 1)
    | String first rest =>
        String first "" +:+ "." +:+ rest +:+ "e+"
        +:+ decimal (Z.of_nat n - 1)
    | "" => ""
    end.

(** The text of the number written [n]. *)
Definition numberText (n : Z) : string :=
  let sign := if n <? 0 then "-" else "" in
  let v := nearestNumber (Z.abs n) in
  if v <? 2 ^ 53 then sign +:+ decimal v
  else if 2 ^ 1024 <=? v then sign +:+ "Infinity"
  else sign +:+ positiveText v.
Arguments numberText : simpl never.

(** ToString of a JSON value, [None] for the TypeError it ends in when an
    object has a member called [toString] (which, coming from JSON, is no
    function).  An array joins its elements with commas, [null] elements
    giving the empty text; every other object gives the same text. *)
Fixpoint toString (value : JSValue) : option string :=
  match value with
  | JSNull => Some "null"
  | JSBool b => Some (if b then "true" else "false")
  | JSNum n => Some (numberText n)
  | JSString s => Some s
  | JSArray items =>
      JSON.joinWith "," <$>
        mapM (λ item, match item with
                      | JSNull => Some ""
                      | _ => toString item
                      end) items
  | JSObject fields =>
      match field "toString" fields with
      | Some _ => None
      | None => Some "[object Object]"
      end
  end.

(** ToString as string concatenation applies it. *)
Definition ToString (value : option JSValue) : option string :=
  match value with
  | None => Some "undefined"
  | Some v => toString v
  end.

(** [value.toString()]. *)
Definition callToString (value : option JSValue) : option string :=
  match value with
  | None | Some JSNull => None
  | Some v => toString v
  end.

(** [value === text]. *)
Definition isString (text : string) (value : option JSValue) : bool :=
  match value with
  | Some (JSString s) => bool_decide (s = text)
  | _ => false
  end.

End JS.

(** ** Running a handler

    A handler can fail in one more way than [processPlayerMove], by a
    TypeError on a property of [undefined] or [null], and the handlers
    write messages of their own to [log].  These are kept, in order, beside
    the world; what [processPlayerMove] logs stays in the world's log. *)
Inductive Failure : Type :=
| PlatformFailure (e : Exception)
| TypeError
| ApiFailure (errorCode : Z)
| Thrown (message : string).

Inductive Outcome (A : Type) : Type :=
| Returned (a : A)
| Raised (f : Failure).
Arguments Returned {A} a.
Arguments Raised {A} f.

Inductive Level : Type := Info | Debug | Error.

(** An item of a player's inventory, as far as [GetOthersInv] looks at it;
    a member that the platform left out is [None]. *)
Record ItemInstance : Type := {
  ItemClass : option string;
  DisplayName : option string;
  RemainingUses : option Z;
}.

(** The requests of the handlers to the parts of the platform that
    [processPlayerMove] does not use. *)
Inductive Request : Type :=
| AddFriend (PlayFabId FriendPlayFabId : option JSValue)
| GetUserInventory (PlayFabId : option JSValue)
| AddMembers (GroupId Entity : option JSValue).

(** What the platform answers: a result of which nothing is read, the
    inventory of a player, or an error with its code. *)
Inductive Reply : Type :=
| Done
| InventoryOf (PlayFabId : option string) (Inventory : list ItemInstance)
| ApiErrorCode (errorCode : Z).

(** What a handler passes to [log]: a text, a text with an object, the
    statistic (or [undefined]) that [getPlayerStatistics] logs, a text
    with an inventory, or the exception that [addMember] caught. *)
Inductive Note : Type :=
| NoteText (level : Level) (message : string)
| NoteObject (level : Level) (message : string) (object : JSValue)
| NoteStatistic (level : Level) (statistic : option Statistic)
| NoteInventory (level : Level) (message : string)
    (Inventory : list ItemInstance)
| NoteFailure (level : Level) (failure : Failure).

Record Host : Type := {
  platform : World;
  notes : list Note;
  (** the requests sent so far, oldest first *)
  asked : list Request;
  (** the platform's answer to each request *)
  replies : Request → Reply;
}.

(** Host [h] with another world and other notes. *)
Definition host (w : World) (ns : list Note) (h : Host) : Host :=
  {| platform := w; notes := ns; asked := asked h; replies := replies h |}.

Definition Handler (A : Type) : Type := Host → Outcome A * Host.

#[export] Instance Handler_ret : MRet Handler := λ A a h, (Returned a, h).

#[export] Instance Handler_bind : MBind Handler := λ A B k m h,
  match m h with
  | (Returned a, h') => k a h'
  | (Raised f, h') => (Raised f, h')
  end.

(** Runs a script on the platform; what it throws, the handler throws. *)
Definition lift {A : Type} (s : Script A) : Handler A := λ h,
  match s (platform h) with
  | (Normal a, w) => (Returned a, host w (notes h) h)
  | (Throw e, w) =>
      (Raised (PlatformFailure e), host w (notes h) h)
  end.

Definition note (n : Note) : Handler unit := λ h,
  (Returned tt, host (platform h) (notes h ++ [n]) h).

Definition raise {A : Type} (f : Failure) : Handler A := λ h, (Raised f, h).

(** [value.name] inside a handler. *)
Definition property (name : string) (value : option JSValue)
  : Handler (option JSValue) :=
  match JS.get name value with
  | Some member => mret member
  | None => raise TypeError
  end.

(** The text of [value] inside a concatenation. *)
Definition text (value : option JSValue) : Handler string :=
  match JS.ToString value with
  | Some s => mret s
  | None => raise TypeError
  end.

(** Host [h] once [request] has gone out. *)
Definition asking (request : Request) (h : Host) : Host :=
  {| platform := platform h; notes := notes h;
     asked := asked h ++ [request]; replies := replies h |}.

(** Sends a request to the platform; an error answer is thrown. *)
Definition ask (request : Request) : Handler Reply := λ h,
  let h' := asking request h in
  match replies h request with
  | ApiErrorCode errorCode => (Raised (ApiFailure errorCode), h')
  | reply => (Returned reply, h')
  end.

(** [try { body } catch (ex) { recover ex }]. *)
Definition tryCatch {A : Type} (body : Handler A)
    (recover : Failure → Handler A) : Handler A := λ h,
  match body h with
  | (Raised ex, h') => recover ex h'
  | (Returned a, h') => (Returned a, h')
  end.

(** [ex.apiErrorInfo.apiError.errorCode]: the code of an error answer, a
    TypeError on an exception that has no [apiErrorInfo].  An exception
    of the world's [server] carries a code that the world does not record;
    no handler below can catch one, and it is thrown on. *)
Definition apiErrorCode (ex : Failure) : Handler Z :=
  match ex with
  | ApiFailure errorCode => mret errorCode
  | PlatformFailure e => raise (PlatformFailure e)
  | TypeError | Thrown _ => raise TypeError
  end.

(** The text of a member that may be left out. *)
Definition textOrUndefined (member : option string) : string :=
  default "undefined" member.

(** The text of [null] or of a text. *)
Definition textOrNull (value : option string) : string :=
  default "null" value.

(** ** The handlers *)
Section Handlers.

Context {runtime : JSRuntime}.

(** [handlers.helloWorld], lines 37-59. *)
Definition helloWorld (args : option JSValue) : Handler JSValue :=
  currentPlayerId ← lift (global currentPlayerId);
  let message := "Hello " +:+ currentPlayerId +:+ "!" in
  note (NoteText Info message);;
  let inputValue := JSNull in
  inputValue ←
    (if JS.truthy args then
       candidate ← property "inputValue" args;
       mret (if JS.truthy candidate then default JSNull candidate
             else inputValue)
     else mret inputValue);
  note (NoteObject Debug "helloWorld:" (JSObject [("input", inputValue)]));;
  mret (JSObject [("messageValue", JSString message)]).

(** [handlers.makeAPICall], lines 62-74; the handler returns nothing. *)
Definition makeAPICall : Script unit :=
  currentPlayerId ← global currentPlayerId;
  let request := [ {| StatisticName := "Level"; Value := 2 |} ] in
  server.UpdatePlayerStatistics currentPlayerId request.

(** [handlers.completedLevel], lines 128-148, for [args] that hold a text
    [levelName] and an integer [monstersKilled]; the handler returns
    nothing. *)
Definition completedLevel (levelName : string) (monstersKilled : Z)
  : Handler unit :=
  let level := levelName in
  currentPlayerId ← lift (global currentPlayerId);
  lift (server.UpdateUserInternalData currentPlayerId
          [ ("lastLevelCompleted", level) ]);;
  note (NoteText Debug
          ("Set lastLevelCompleted for player " +:+ currentPlayerId
           +:+ " to " +:+ level));;
  let request :=
    [ {| StatisticName := "level_monster_kills"; Value := monstersKilled |} ] in
  lift (server.UpdatePlayerStatistics currentPlayerId request);;
  note (NoteText Debug
          ("Updated level_monster_kills stat for player " +:+ currentPlayerId
           +:+ " to " +:+ JSON.numberString monstersKilled)).

(** [handlers.updatePlayerMove], lines 153-156. *)
Definition updatePlayerMove (args : JSValue) : Script JSValue :=
  validMove ← processPlayerMove args;
  mret (JSObject [("validMove", JSBool validMove)]).

(** [handlers.unlockHighSkillContent], lines 225-237. *)
Definition unlockHighSkillContent (context : option JSValue)
  : Handler JSValue :=
  playerStatUpdatedEvent ← property "playStreamEvent" context;
  currentPlayerId ← lift (global currentPlayerId);
  StatisticValue ← property "StatisticValue" playerStatUpdatedEvent;
  XPAtHighSkillUnlock ←
    match JS.callToString StatisticValue with
    | Some s => mret s
    | None => raise TypeError
    end;
  let request :=
    [ ("HighSkillContent", "true");
      ("XPAtHighSkillUnlock", XPAtHighSkillUnlock) ] in
  lift (server.UpdateUserInternalData currentPlayerId request);;
  playerProfile ← property "playerProfile" context;
  DisplayName ← property "DisplayName" playerProfile;
  DisplayName ← text DisplayName;
  note (NoteText Info ("Unlocked HighSkillContent for " +:+ DisplayName));;
  mret (JSObject [("profile", default JSNull playerProfile)]).

(** [handlers.RoomEventRaised], lines 279-291; the handler returns
    nothing. *)
Definition RoomEventRaised (args : option JSValue) : Handler unit :=
  eventData ← property "Data" args;
  GameId ← property "GameId" args;
  GameId ← text GameId;
  eventType ← property "eventType" eventData;
  eventTypeText ← text eventType;
  note (NoteText Debug
          ("Event Raised - Game: " +:+ GameId
           +:+ " Event Type: " +:+ eventTypeText));;
  if JS.isString "playerMove" eventType then
    match eventData with
    | Some eventData => lift (processPlayerMove eventData);; mret tt
    | None => mret tt
    end
  else mret tt.

(** [handlers.getPlayerStatistics], lines 346-351. *)
Definition getPlayerStatistics : Handler Z :=
  currentPlayerId ← lift (global currentPlayerId);
  myResult ← lift (server.GetPlayerStatistics currentPlayerId);
  let s := snd <$> list_find (λ s, StatisticName s = "XP") myResult in
  note (NoteStatistic Info s);;
  match s with
  | Some s => mret (Value s)
  | None => raise TypeError
  end.

(** [handlers.GetOthersInv], lines 293-305. *)
Definition GetOthersInv (args : option JSValue) : Handler JSValue :=
  ID ← property "ID" args;
  IDText ← text ID;
  note (NoteText Debug ("PlayFabId:" +:+ IDText));;
  inventory ← ask (GetUserInventory ID);
  match inventory with
  | InventoryOf PlayFabId Inventory =>
      note (NoteInventory Debug
              (textOrUndefined PlayFabId +:+ ": Inventory"
               +:+ JSON.numberString (Z.of_nat (length Inventory)))
              Inventory);;
      let Mystring : option string := None in
      let Mystring :=
        foldl (λ Mystring item,
                 if bool_decide (ItemClass item = Some "Inventory") then
                   Some (textOrNull Mystring +:+ "#"
                         +:+ textOrUndefined (DisplayName item) +:+ " x"
                         +:+ textOrUndefined
                               (JSON.numberString <$> RemainingUses item)
                         +:+ "#")
                 else Mystring)
              Mystring Inventory in
      note (NoteText Debug ("GetOthersInv:" +:+ textOrNull Mystring));;
      mret (JSObject [("messageValue",
                       match Mystring with
                       | Some s => JSString s
                       | None => JSNull
                       end)])
  | _ => raise TypeError
  end.

(** [handlers.addMember], lines 360-372. *)
Definition addMember (args context : option JSValue) : Handler bool :=
  GroupId ← property "GroupId" args;
  entityProfile ← property "currentEntity" context;
  returned ←
    tryCatch
      (Entity ← property "Entity" entityProfile;
       ask (AddMembers GroupId Entity);;
       mret None)
      (λ error,
         note (NoteFailure Error error);;
         mret (Some false));
  match returned with
  | Some result => mret result
  | None => mret true
  end.

(** [handlers.AddFriendToPlayer], lines 587-603. *)
Definition AddFriendToPlayer (args : option JSValue) : Handler bool :=
  returned ←
    tryCatch
      (playerId ← property "playerId" args;
       friendId ← property "friendId" args;
       ask (AddFriend playerId friendId);;
       mret None)
      (λ ex,
         errorCode ← apiErrorCode ex;
         if (errorCode =? 1183) || (errorCode =? 1133) then mret (Some false)
         else
           raise (Thrown ("An error occurred calling AddFriend in "
                          +:+ "execFriendsOp.AddFriendToPlayer ("
                          +:+ JSON.numberString errorCode +:+ ")")));
  match returned with
  | Some result => mret result
  | None => mret true
  end.

End Handlers.

(** ** Concrete hosts

    Hosts over the worlds of [Scenario], and arguments as the platform
    hands them to the handlers. *)
Module Visit.

(** A platform that carries out every request of a handler. *)
Definition agrees : Request → Reply := λ _, Done.

(** A platform on which the two players are friends already. *)
Definition alreadyFriends : Request → Reply := λ request,
  match request with
  | AddFriend _ _ => ApiErrorCode 1183
  | _ => Done
  end.

Definition sword : ItemInstance :=
  {| ItemClass := Some "Inventory"; DisplayName := Some "Sword";
     RemainingUses := Some 3 |}.

Definition badge : ItemInstance :=
  {| ItemClass := Some "Trophy"; DisplayName := Some "Badge";
     RemainingUses := None |}.

(** A platform on which every player owns a badge and a sword. *)
Definition showsInventory : Request → Reply := λ request,
  match request with
  | GetUserInventory _ => InventoryOf (Some "Q") [badge; sword]
  | _ => Done
  end.

(** A host that has not logged or asked anything yet. *)
Definition fresh (w : World) (answers : Request → Reply) : Host :=
  {| platform := w; notes := []; asked := []; replies := answers |}.

(** A player with 1200 experience points besides the statistics of the
    returning player. *)
Definition experiencedPlayer (now : Z) : World := {|
  clock := now;
  currentPlayerId := "P";
  userInternalData := ∅;
  playerStatistics :=
    {[ "P" := [ {| StatisticName := "Level"; Value := 2 |};
                {| StatisticName := "XP"; Value := 1200 |} ] ]};
  fails := Scenario.carriesOutAll;
  calls := [];
  logged := [];
|}.

(** Room events: a move, and a chat line. *)
Definition moveData : JSValue :=
  JSObject [("eventType", JSString "playerMove"); ("dir", JSString "N")].

Definition moveEvent : option JSValue :=
  Some (JSObject [("GameId", JSString "room-1"); ("Data", moveData)]).

Definition chatEvent : option JSValue :=
  Some (JSObject [("GameId", JSString "room-1");
                  ("Data", JSObject [("eventType", JSString "chat")])]).

(** The context of a statistic event for a player called Ann. *)
Definition annProfile : JSValue := JSObject [("DisplayName", JSString "Ann")].

Definition skillEvent : option JSValue :=
  Some (JSObject [("StatisticValue", JSNum 1200)]).

Definition skillContext : option JSValue :=
  Some (JSObject
          [("playStreamEvent", JSObject [("StatisticValue", JSNum 1200)]);
           ("playerProfile", annProfile)]).

(** The same with a statistic of [10^21]. *)
Definition hugeEvent : option JSValue :=
  Some (JSObject [("StatisticValue", JSNum (10 ^ 21))]).

Definition hugeContext : option JSValue :=
  Some (JSObject
          [("playStreamEvent", JSObject [("StatisticValue", JSNum (10 ^ 21))]);
           ("playerProfile", annProfile)]).

(** Arguments of [helloWorld], [AddFriendToPlayer], [GetOthersInv] and
    [addMember]. *)
Definition greeting : option JSValue :=
  Some (JSObject [("inputValue", JSNum 7)]).

Definition friendship : option JSValue :=
  Some (JSObject [("playerId", JSString "P"); ("friendId", JSString "Q")]).

Definition inventoryOfQ : option JSValue :=
  Some (JSObject [("ID", JSString "Q")]).

Definition joinGroup : option JSValue :=
  Some (JSObject [("GroupId", JSString "G")]).

Definition memberEntity : JSValue :=
  JSObject [("Id", JSString "E1"); ("Type", JSString "title_player_account")].

Definition memberContext : option JSValue :=
  Some (JSObject [("currentEntity", JSObject [("Entity", memberEntity)])]).

End Visit.

(** * Facts about the built-ins *)
Module ESFacts.
Import ES.

Ltac divlia := Z.div_mod_to_equations; lia.

Lemma DayFromYear_succ y :
  DayFromYear (y + 1) = DayFromYear y + DaysInYear y.
Proof.
  unfold DayFromYear, DaysInYear.
  destruct (Z.eqb_spec (y mod 4) 0); destruct (Z.eqb_spec (y mod 100) 0);
    destruct (Z.eqb_spec (y mod 400) 0); simpl; divlia.
Qed.

Lemma DayFromYear_lower d :
  DayFromYear (1970 + Z.min (d / 365) (d / 366)) <= d.
Proof. unfold DayFromYear. divlia. Qed.

Lemma DayFromYear_upper d :
  d < DayFromYear (1970 + Z.max (d / 365) (d / 366) + 1).
Proof. unfold DayFromYear. divlia. Qed.

Lemma year_search_spec fuel d y :
  DayFromYear y <= d < DayFromYear (y + Z.of_nat fuel + 1) →
  DayFromYear (year_search fuel d y) <= d
  < DayFromYear (year_search fuel d y + 1).
Proof.
  revert y. induction fuel as [|fuel IH]; intros y H; simpl.
  - replace (y + Z.of_nat 0 + 1) with (y + 1) in H by lia. done.
  - destruct (Z.leb_spec (DayFromYear (y + 1)) d) as [Hle|Hgt].
    + apply IH. split; [done|].
      replace (y + 1 + Z.of_nat fuel + 1) with (y + Z.of_nat (S fuel) + 1)
        by lia.
      apply H.
    + lia.
Qed.

Lemma YearFromDay_spec d :
  DayFromYear (YearFromDay d) <= d < DayFromYear (YearFromDay d + 1).
Proof.
  unfold YearFromDay. apply year_search_spec. split.
  - apply DayFromYear_lower.
  - rewrite Z2Nat.id by lia.
    replace (1970 + Z.min (d / 365) (d / 366)
             + (Z.max (d / 365) (d / 366) - Z.min (d / 365) (d / 366)) + 1)
      with (1970 + Z.max (d / 365) (d / 366) + 1) by lia.
    apply DayFromYear_upper.
Qed.

Lemma DayWithinYear_range t :
  0 <= DayWithinYear t < DaysInYear (YearFromTime t).
Proof.
  unfold DayWithinYear, YearFromTime.
  pose proof (YearFromDay_spec (Day t)) as H.
  rewrite DayFromYear_succ in H. lia.
Qed.

Lemma DaysInYear_cases y : DaysInYear y = 365 ∨ DaysInYear y = 366.
Proof. unfold DaysInYear. repeat case_match; auto. Qed.

Lemma InLeapYear_spec t :
  DaysInYear (YearFromTime t) = 365 + InLeapYear t
  ∧ (InLeapYear t = 0 ∨ InLeapYear t = 1).
Proof.
  unfold InLeapYear.
  destruct (DaysInYear_cases (YearFromTime t)) as [-> | ->]; simpl; lia.
Qed.

Lemma MonthFromTime_range t : 0 <= MonthFromTime t <= 11.
Proof. unfold MonthFromTime. repeat case_match; lia. Qed.

Lemma DateFromTime_range t : 1 <= DateFromTime t <= 31.
Proof.
  pose proof (DayWithinYear_range t) as Hd.
  destruct (InLeapYear_spec t) as [Hy Hl].
  unfold DateFromTime, MonthFromTime.
  repeat (case_match; [simpl; lia|]). simpl. lia.
Qed.

Lemma MakeDay_FromTime t :
  MakeDay (YearFromTime t) (MonthFromTime t) (DateFromTime t) = Day t.
Proof.
  pose proof (MonthFromTime_range t) as Hm.
  unfold MakeDay.
  rewrite Z.div_small, Z.mod_small, Z.add_0_r by lia.
  fold (InLeapYear t). unfold DateFromTime, DayWithinYear. lia.
Qed.

Lemma MakeDate_FromTime t :
  MakeDate (Day t) (MakeTime (HourFromTime t) (MinFromTime t) (SecFromTime t) 0)
  = 1000 * (t / 1000).
Proof.
  unfold MakeDate, MakeTime, Day, HourFromTime, MinFromTime, SecFromTime,
    msPerDay, msPerHour, msPerMinute, msPerSecond.
  divlia.
Qed.
Lemma digitValue_digitChar k :
  0 <= k < 10 → digitValue (digitChar k) = Some k.
Proof.
  intros Hk. unfold digitValue, digitChar.
  rewrite nat_ascii_embedding by lia.
  rewrite Z2Nat.id by lia.
  replace (48 <=? 48 + k) with true by (symmetry; apply Z.leb_le; lia).
  replace (48 + k <=? 57) with true by (symmetry; apply Z.leb_le; lia).
  simpl. f_equal. lia.
Qed.

Lemma app_cons a s r : String a s +:+ r = String a (s +:+ r).
Proof. reflexivity. Qed.

Lemma app_empty r : "" +:+ r = r.
Proof. reflexivity. Qed.

Lemma string_app_assoc a b c : (a +:+ b) +:+ c = a +:+ (b +:+ c).
Proof. induction a as [|x a IH]; [done|]. rewrite !app_cons. by rewrite IH. Qed.

Lemma readDigits_decimalDigits w n rest acc :
  0 <= n < 10 ^ Z.of_nat w →
  readDigits (decimalDigits w n +:+ rest) acc
  = readDigits rest (acc * 10 ^ Z.of_nat w + n).
Proof.
  revert n rest acc. induction w as [|w IH]; intros n rest acc Hn.
  - simpl decimalDigits. rewrite app_empty. f_equal. simpl in Hn. lia.
  - rewrite Nat2Z.inj_succ, Z.pow_succ_r in * by lia.
    simpl decimalDigits. rewrite string_app_assoc, app_cons, app_empty.
    rewrite IH by divlia.
    simpl readDigits. rewrite digitValue_digitChar by divlia.
    f_equal. divlia.
Qed.

Lemma decimalDigits_head w n rest :
  ∃ k s,
    0 <= k < 10 ∧ decimalDigits (S w) n +:+ rest = String (digitChar k) s.
Proof.
  revert n rest. induction w as [|w IH]; intros n rest.
  - exists (n mod 10), rest. split; [divlia|done].
  - change (decimalDigits (S (S w)) n)
      with (decimalDigits (S w) (n / 10) +:+ String (digitChar (n mod 10)) "").
    rewrite string_app_assoc. apply IH.
Qed.

Lemma countDigits_bound fuel n :
  0 <= n < 2 ^ (Z.of_nat fuel + 1) → n < 10 ^ Z.of_nat (countDigits fuel n).
Proof.
  revert n. induction fuel as [|fuel IH]; intros n Hn.
  - simpl in *. lia.
  - simpl countDigits. destruct (Z.ltb_spec n 10) as [Hlt|Hge]; [simpl; lia|].
    rewrite Nat2Z.inj_succ, Z.pow_succ_r by lia.
    replace (Z.of_nat (S fuel) + 1) with (Z.succ (Z.of_nat fuel + 1)) in Hn
      by lia.
    rewrite Z.pow_succ_r in Hn by lia.
    assert (n / 10 < 10 ^ Z.of_nat (countDigits fuel (n / 10))) as H.
    { apply IH. divlia. }
    divlia.
Qed.

Lemma numDigits_bound n : 0 <= n → n < 10 ^ Z.of_nat (numDigits n).
Proof.
  intros Hn. unfold numDigits.
  destruct (Z.eq_dec n 0) as [->|Hne]; [done|].
  apply countDigits_bound. rewrite Z2Nat.id by apply Z.log2_nonneg.
  pose proof (Z.log2_spec n). rewrite <- Z.add_1_r in H. lia.
Qed.

Lemma padded_bound n k :
  0 <= n → n < 10 ^ Z.of_nat (Nat.max k (numDigits n)).
Proof.
  intros Hn. eapply Z.lt_le_trans; [by apply numDigits_bound|].
  apply Z.pow_le_mono_r; lia.
Qed.

Lemma readNumber_padded n k c rest :
  0 <= n → (1 <= k)%nat → digitValue c = None →
  readNumber (ToZeroPaddedDecimalString n k +:+ String c rest)
  = Some (n, String c rest).
Proof.
  intros Hn Hk Hc. unfold ToZeroPaddedDecimalString.
  pose proof (padded_bound n k Hn) as Hb.
  destruct (Nat.max k (numDigits n)) as [|w] eqn:Hw; [lia|].
  destruct (decimalDigits_head w n (String c rest)) as (d & s & Hd & Hs).
  unfold readNumber. rewrite Hs, digitValue_digitChar by done.
  rewrite <- Hs.
  rewrite readDigits_decimalDigits by (split; [done|apply Hb]).
  simpl readDigits. rewrite Hc. do 2 f_equal.
Qed.

Lemma stripPrefix_app p s : stripPrefix p (p +:+ s) = Some s.
Proof.
  induction p as [|a p IH]; [done|].
  rewrite app_cons. simpl. by rewrite decide_True.
Qed.

Lemma readName_weekdays i rest :
  0 <= i < 7 →
  readName weekdays 0 (nameOf weekdays i +:+ rest) = Some (i, rest).
Proof.
  intros Hi.
  assert (i = 0 ∨ i = 1 ∨ i = 2 ∨ i = 3 ∨ i = 4 ∨ i = 5 ∨ i = 6) as H
    by lia.
  repeat (destruct H as [->|H]); try subst i; reflexivity.
Qed.

Lemma readName_months i rest :
  0 <= i <= 11 →
  readName months 0 (nameOf months i +:+ rest) = Some (i, rest).
Proof.
  intros Hi.
  assert (i = 0 ∨ i = 1 ∨ i = 2 ∨ i = 3 ∨ i = 4 ∨ i = 5 ∨ i = 6 ∨ i = 7
          ∨ i = 8 ∨ i = 9 ∨ i = 10 ∨ i = 11) as H by lia.
  repeat (destruct H as [->|H]); try subst i; reflexivity.
Qed.

Lemma YearFromTime_nonneg t : 0 <= t → 1970 <= YearFromTime t.
Proof.
  intros Ht. unfold YearFromTime.
  pose proof (YearFromDay_spec (Day t)) as [_ H].
  assert (0 <= Day t) by (unfold Day, msPerDay; divlia).
  unfold DayFromYear in H. divlia.
Qed.

Lemma time_fields_range t :
  0 <= WeekDay t < 7 ∧ 0 <= HourFromTime t <= 23 ∧
  0 <= MinFromTime t <= 59 ∧ 0 <= SecFromTime t <= 59.
Proof.
  unfold WeekDay, HourFromTime, MinFromTime, SecFromTime. divlia.
Qed.

Lemma readNumber_padded_sep n k c p rest :
  0 <= n → (1 <= k)%nat → digitValue c = None →
  readNumber (ToZeroPaddedDecimalString n k +:+ String c p +:+ rest)
  = Some (n, String c p +:+ rest).
Proof. intros. by apply (readNumber_padded n k c (p +:+ rest)). Qed.

Lemma leb_true a b : a <= b → (a <=? b) = true.
Proof. apply Z.leb_le. Qed.

Lemma parseUTCString_toUTCString t :
  0 <= t <= maxTime →
  parseUTCString (toUTCString (TimeClip t)) = Some (1000 * (t / 1000)).
Proof.
  intros Ht.
  pose proof (YearFromTime_nonneg t (proj1 Ht)) as Hy.
  pose proof (MonthFromTime_range t) as Hm.
  pose proof (DateFromTime_range t) as Hd.
  destruct (time_fields_range t) as (Hw & Hh & Hmi & Hs).
  unfold TimeClip. rewrite Z.abs_eq, leb_true by lia.
  unfold toUTCString, TimeString, parseUTCString.
  rewrite (leb_true 0) by lia.
  rewrite Z.abs_eq by lia. rewrite app_empty.
  rewrite readName_weekdays by done. cbn [mbind option_bind].
  rewrite stripPrefix_app. cbn [mbind option_bind].
  rewrite readNumber_padded_sep by (done || lia). cbn [mbind option_bind].
  rewrite stripPrefix_app. cbn [mbind option_bind].
  rewrite readName_months by done. cbn [mbind option_bind].
  rewrite stripPrefix_app. cbn [mbind option_bind].
  rewrite readNumber_padded_sep by (done || lia). cbn [mbind option_bind].
  rewrite stripPrefix_app. cbn [mbind option_bind].
  rewrite readNumber_padded_sep by (done || lia). cbn [mbind option_bind].
  rewrite stripPrefix_app. cbn [mbind option_bind].
  rewrite readNumber_padded_sep by (done || lia). cbn [mbind option_bind].
  rewrite stripPrefix_app. cbn [mbind option_bind].
  rewrite readNumber_padded by (done || lia). cbn [mbind option_bind].
  change (stripPrefix " GMT" " GMT") with (Some "").
  cbn [mbind option_bind]. rewrite decide_True by done.
  rewrite !leb_true by lia. cbn [andb].
  rewrite MakeDay_FromTime, MakeDate_FromTime.
  unfold TimeClip.
  rewrite Z.abs_eq, leb_true; [done| |]; unfold maxTime in *; divlia.
Qed.

End ESFacts.

(** * Running the script, step by step *)
Section Execution.

Context {runtime : JSRuntime}.

Lemma bind_run {A B} (m : Script A) (k : A → Script B) (w : World) :
  (m ≫= k) w =
  match m w with
  | (Normal a, w') => k a w'
  | (Throw e, w') => (Throw e, w')
  end.
Proof. reflexivity. Qed.

Lemma send_run (c : ApiCall) (w : World) :
  server.send c w =
  (if fails w c then Throw (ApiError c) else Normal tt, sent c w).
Proof. unfold server.send, sent. by destruct (fails w c). Qed.

Lemma requested_single (stored : gmap string string) (k : string) :
  (list_to_map (omap (λ k, v ← stored !! k; Some (k, v)) [k])
     : gmap string string) !! k = stored !! k.
Proof.
  simpl. destruct (stored !! k) eqn:E; simpl; [|done].
  by rewrite lookup_insert_eq.
Qed.

Lemma accept_run (m : JSValue) (w : World) :
  processPlayerMove_accept (clock w) (currentPlayerId w) m w =
  let w1 := sent (statisticsRequest w) w in
  let w2 := sent (statisticsWrite w) w1 in
  let w3 := sent (dataWrite m w) (statisticsWritten (movesMadeToWrite w) w2) in
  if fails w (statisticsRequest w)
  then (Throw (ApiError (statisticsRequest w)), w1)
  else if fails w (statisticsWrite w)
  then (Throw (ApiError (statisticsWrite w)), w2)
  else if fails w (dataWrite m w)
  then (Throw (ApiError (dataWrite m w)), w3)
  else (Normal true,
        dataWritten (Date_toUTCString (clock w)) (JSON_stringify m) w3).
Proof.
  unfold processPlayerMove_accept, server.GetPlayerStatistics,
    server.UpdatePlayerStatistics, server.UpdateUserInternalData.
  rewrite !bind_run, send_run.
  fold (statisticsRequest w).
  destruct (fails w (statisticsRequest w)) eqn:E1; [done|].
  cbn [global].
  rewrite !bind_run, send_run.
  change (statisticsOf (sent (statisticsRequest w) w) (currentPlayerId w))
    with (statisticsOf w (currentPlayerId w)).
  fold (movesMadeToWrite w). fold (statisticsWrite w).
  change (fails (sent (statisticsRequest w) w)) with (fails w).
  destruct (fails w (statisticsWrite w)) eqn:E2; [done|].
  cbn [change].
  rewrite !bind_run, send_run.
  fold (dataWrite m w).
  cbn [fails with_playerStatistics].
  change (fails (sent (statisticsWrite w) (sent (statisticsRequest w) w)))
    with (fails w).
  destruct (fails w (dataWrite m w)) eqn:E3; [done|].
  reflexivity.
Qed.

Lemma logging_nil (w : World) : logging [] w = w.
Proof.
  destruct w. unfold logging, with_logged. simpl. by rewrite app_nil_r.
Qed.

Lemma logging_logging (l1 l2 : list LogEntry) (w : World) :
  logging l2 (logging l1 w) = logging (l1 ++ l2) w.
Proof. unfold logging, with_logged. simpl. by rewrite app_assoc. Qed.

(** The whole function as one decision list over the initial world. *)
Lemma processPlayerMove_run (m : JSValue) (w : World) :
  processPlayerMove m w =
  let w1 := checked w in
  let w2 := sent (statisticsRequest w) w1 in
  let w3 := sent (statisticsWrite w) w2 in
  let w4 := sent (dataWrite m w) (statisticsWritten (movesMadeToWrite w) w3) in
  if fails w (readRequest w)
  then (Throw (ApiError (readRequest w)), sent (readRequest w) w)
  else if tooSoon w then (Normal false, w1)
  else if fails w (statisticsRequest w)
  then (Throw (ApiError (statisticsRequest w)), w2)
  else if fails w (statisticsWrite w)
  then (Throw (ApiError (statisticsWrite w)), w3)
  else if fails w (dataWrite m w)
  then (Throw (ApiError (dataWrite m w)), w4)
  else (Normal true,
        dataWritten (Date_toUTCString (clock w)) (JSON_stringify m) w4).
Proof.
  unfold processPlayerMove, Date_now, server.GetUserInternalData.
  do 2 (rewrite bind_run; cbn [global]).
  rewrite !bind_run, send_run. fold (readRequest w).
  destruct (fails w (readRequest w)) eqn:E1; [done|].
  rewrite !bind_run. cbn [global mret Script_ret].
  rewrite requested_single.
  change (dataOf (sent (readRequest w) w) (currentPlayerId w)
            !! "last_move_timestamp") with (lastMoveTimestampOf w).
  unfold checked, tooSoon, cooldownLog.
  destruct (lastMoveTimestampOf w) as [text|].
  - cbv zeta. rewrite bind_run. unfold log.debug, log.error, change.
    fold (logging [LogDebug (MsgLastMoveTime (Date_parse text)
            (Number.of_Z (clock w))
            (timeSinceLastMoveInSeconds (clock w) (Date_parse text)))]
            (sent (readRequest w) w)).
    destruct (Number.ltb _ _).
    + rewrite bind_run. unfold mret, Script_ret. f_equal.
      exact (logging_logging [_] [_] _).
    + exact (accept_run m (logging _ (sent (readRequest w) w))).
  - rewrite logging_nil. exact (accept_run m (sent (readRequest w) w)).
Qed.

End Execution.

(** * The cooldown check and the stores *)
Section Validator.

Context {runtime : JSRuntime}.

(** The comparison of line 188, over the rationals. *)
Lemma ltb_timeSince (now : Z) (last : Q) (cooldown : Z) :
  Number.ltb (timeSinceLastMoveInSeconds now (Number.Fin last))
             (Number.of_Z cooldown) = true
  ↔ (elapsedSeconds now last < inject_Z cooldown)%Q.
Proof.
  unfold timeSinceLastMoveInSeconds, elapsedSeconds, Number.of_Z. simpl.
  rewrite Qlt_alt. by destruct (_ ?= _)%Q.
Qed.

Lemma ltb_timeSince_false (now : Z) (last : Q) (cooldown : Z) :
  Number.ltb (timeSinceLastMoveInSeconds now (Number.Fin last))
             (Number.of_Z cooldown) = false
  ↔ (inject_Z cooldown <= elapsedSeconds now last)%Q.
Proof.
  rewrite <- not_true_iff_false, ltb_timeSince. split.
  - apply Qnot_lt_le.
  - apply Qle_not_lt.
Qed.

(** The same comparison in milliseconds, when the last move is a time
    value. *)
Lemma elapsedSeconds_lt (now last cooldown : Z) :
  (elapsedSeconds now (inject_Z last) < inject_Z cooldown)%Q
  ↔ now - last < 1000 * cooldown.
Proof.
  unfold elapsedSeconds, Qlt, Qdiv, Qmult, Qinv, Qminus, Qplus, Qopp, inject_Z.
  simpl. lia.
Qed.

Lemma elapsedSeconds_le (now last cooldown : Z) :
  (inject_Z cooldown <= elapsedSeconds now (inject_Z last))%Q
  ↔ 1000 * cooldown <= now - last.
Proof.
  unfold elapsedSeconds, Qle, Qdiv, Qmult, Qinv, Qminus, Qplus, Qopp, inject_Z.
  simpl. lia.
Qed.

Lemma tooSoon_None (w : World) :
  lastMoveTimestampOf w = None → tooSoon w = false.
Proof. unfold tooSoon. by intros ->. Qed.

Lemma tooSoon_NaN (w : World) (text : string) :
  lastMoveTimestampOf w = Some text → Date_parse text = Number.NaN →
  tooSoon w = false.
Proof. unfold tooSoon. by intros -> ->. Qed.

Lemma tooSoon_Fin (w : World) (text : string) (last : Q) :
  lastMoveTimestampOf w = Some text → Date_parse text = Number.Fin last →
  tooSoon w = true ↔ (elapsedSeconds (clock w) last < 15)%Q.
Proof. unfold tooSoon. intros -> ->. apply (ltb_timeSince _ _ 15). Qed.

Lemma tooSoon_Fin_false (w : World) (text : string) (last : Q) :
  lastMoveTimestampOf w = Some text → Date_parse text = Number.Fin last →
  tooSoon w = false ↔ (15 <= elapsedSeconds (clock w) last)%Q.
Proof. unfold tooSoon. intros -> ->. apply (ltb_timeSince_false _ _ 15). Qed.

Lemma tooSoon_time_value (w : World) (text : string) (last : Z) :
  lastMoveTimestampOf w = Some text → Date_parse text = Number.of_Z last →
  tooSoon w = (clock w - last <? 15000).
Proof.
  intros Hts Hparse.
  destruct (Z.ltb_spec (clock w - last) 15000) as [Hlt|Hge].
  - apply (tooSoon_Fin w text _ Hts Hparse).
    apply (elapsedSeconds_lt _ _ 15). lia.
  - apply (tooSoon_Fin_false w text _ Hts Hparse).
    apply (elapsedSeconds_le _ _ 15). lia.
Qed.

Lemma tooSoon_forget (w : World) : tooSoon (forgetLastMoveTimestamp w) = false.
Proof.
  apply tooSoon_None.
  unfold lastMoveTimestampOf, forgetLastMoveTimestamp, dataOf. simpl.
  rewrite lookup_insert_eq. simpl. apply lookup_delete_eq.
Qed.

(** The decision of the code is the decision of the specification. *)
Lemma tooSoon_moveAllowed (w : World) :
  negb (tooSoon w)
  = moveAllowed Date_parse (clock w) (lastMoveTimestampOf w) 15.
Proof.
  unfold tooSoon, moveAllowed.
  destruct (lastMoveTimestampOf w) as [text|]; [|done].
  destruct (Date_parse text) as [|last] eqn:E; [done|].
  destruct (Qlt_le_dec _ _) as [Hlt|Hle].
  - apply (ltb_timeSince _ _ 15) in Hlt. by rewrite Hlt.
  - apply (ltb_timeSince_false _ _ 15) in Hle. by rewrite Hle.
Qed.

(** *** What the writes leave in the stores *)

Lemma dataOf_dataWritten (ts mv : string) (w : World) :
  dataOf (dataWritten ts mv w) (currentPlayerId w)
  = <["last_move" := mv]>
      (<["last_move_timestamp" := ts]> (dataOf w (currentPlayerId w))).
Proof. unfold dataOf at 1. simpl. by rewrite lookup_insert_eq. Qed.

Lemma lastMoveTimestampOf_dataWritten (ts mv : string) (w : World) :
  lastMoveTimestampOf (dataWritten ts mv w) = Some ts.
Proof.
  unfold lastMoveTimestampOf.
  change (currentPlayerId (dataWritten ts mv w)) with (currentPlayerId w).
  rewrite dataOf_dataWritten. by rewrite lookup_insert_ne, lookup_insert_eq.
Qed.

Lemma lastMoveOf_dataWritten (ts mv : string) (w : World) :
  lastMoveOf (dataWritten ts mv w) = Some mv.
Proof.
  unfold lastMoveOf.
  change (currentPlayerId (dataWritten ts mv w)) with (currentPlayerId w).
  rewrite dataOf_dataWritten. by rewrite lookup_insert_eq.
Qed.

Lemma statisticValue_upsert (name : string) (n : Z) (l : list Statistic) :
  statisticValue name
    (server.upsert {| StatisticName := name; Value := n |} l) = Some n.
Proof.
  unfold statisticValue. induction l as [|x l IH]; simpl.
  - by rewrite decide_True.
  - destruct (decide (StatisticName x = name)) as [Heq|Hne]; simpl.
    + by rewrite decide_True.
    + rewrite decide_False by done.
      destruct (list_find _ (server.upsert _ l)) as [[i y]|]; simpl in *;
        [done|discriminate].
Qed.

Lemma movesMadeOf_statisticsWritten (n : Z) (w : World) :
  movesMadeOf (statisticsWritten n w) = Some n.
Proof.
  unfold movesMadeOf, statisticsOf, statisticsWritten. simpl.
  rewrite lookup_insert_eq. simpl. apply statisticValue_upsert.
Qed.

(** *** The result of a call *)

Lemma result_is_decision (m : JSValue) (w : World) (b : bool) :
  (processPlayerMove m w).1 = Normal b → b = negb (tooSoon w).
Proof.
  rewrite processPlayerMove_run. cbv zeta.
  repeat case_match; cbn [fst]; intros Hres; by inversion Hres.
Qed.

Lemma result_false_iff (m : JSValue) (w : World) :
  (processPlayerMove m w).1 = Normal false
  ↔ fails w (readRequest w) = false ∧ tooSoon w = true.
Proof.
  rewrite processPlayerMove_run. cbv zeta.
  repeat case_match; cbn [fst]; split; intros Hres;
    (done || by destruct Hres).
Qed.

Lemma result_reliable (m : JSValue) (w : World) :
  reliable w → (processPlayerMove m w).1 = Normal (negb (tooSoon w)).
Proof.
  intros Hr. rewrite processPlayerMove_run. cbv zeta. rewrite !Hr.
  by destruct (tooSoon w).
Qed.

Lemma fails_run (m : JSValue) (w : World) :
  fails (processPlayerMove m w).2 = fails w.
Proof. rewrite processPlayerMove_run. cbv zeta. by repeat case_match. Qed.

Lemma reliable_run (m : JSValue) (w : World) (now : Z) :
  reliable w → reliable (with_clock now (processPlayerMove m w).2).
Proof.
  intros Hr c. change (fails (processPlayerMove m w).2 c = false).
  by rewrite fails_run.
Qed.

Lemma lastMoveTimestampOf_run (m : JSValue) (w : World) :
  (processPlayerMove m w).1 ≠ Normal true →
  lastMoveTimestampOf (processPlayerMove m w).2 = lastMoveTimestampOf w.
Proof. rewrite processPlayerMove_run. cbv zeta. by repeat case_match. Qed.

Lemma committed_run (m : JSValue) (w : World) :
  (processPlayerMove m w).1 = Normal true →
  lastMoveTimestampOf (processPlayerMove m w).2
  = Some (Date_toUTCString (clock w))
  ∧ lastMoveOf (processPlayerMove m w).2 = Some (JSON_stringify m).
Proof.
  rewrite processPlayerMove_run. cbv zeta.
  repeat case_match; cbn [fst snd]; try discriminate.
  intros _. split.
  - apply lastMoveTimestampOf_dataWritten.
  - apply lastMoveOf_dataWritten.
Qed.

(** The statistic an accepted move leaves behind is the value computed at
    lines 197-201. *)
Lemma committed_movesMade (m : JSValue) (w : World) :
  (processPlayerMove m w).1 = Normal true →
  movesMadeOf (processPlayerMove m w).2 = Some (movesMadeToWrite w).
Proof.
  rewrite processPlayerMove_run. cbv zeta.
  repeat case_match; cbn [fst snd]; try discriminate.
  intros _. apply movesMadeOf_statisticsWritten.
Qed.

End Validator.

(** * The claims that hold for every runtime *)
Section Claims.

Context {runtime : JSRuntime}.

(** The value written for [movesMade] does not depend on the statistics
    the player has, unless one of them has the empty name. *)
Lemma movesMadeToWrite_one (w : World) :
  (∀ stat, stat ∈ statisticsOf w (currentPlayerId w) →
           StatisticName stat ≠ "") →
  movesMadeToWrite w = 1.
Proof.
  unfold movesMadeToWrite. generalize (statisticsOf w (currentPlayerId w)).
  intros l Hl. assert (∀ acc, foldl (λ movesMade stat,
      if decide (StatisticName stat = "") then Value stat else movesMade)
      acc l = acc) as ->; [|done].
  induction l as [|x l IH]; intros acc; [done|]. simpl.
  rewrite decide_False by (apply Hl; left). apply IH.
  intros stat Hin. apply Hl. by right.
Qed.

(** C2, as amended: a failed write always ends the call with the exception
    for that write as the last request sent, so the call does not return
    true, and the internal data is as before the call.  When it is the
    statistics write that fails the statistics are as before as well; when
    it is the data write, the statistics write has already been carried
    out and [movesMade] keeps the new value. *)
Theorem C2_failed_write_is_surfaced
    (playerMove : JSValue) (w : World) (c : ApiCall) :
  let r := (processPlayerMove playerMove w).1 in
  let w' := (processPlayerMove playerMove w).2 in
  c ∈ callsSince w w' → isWrite c = true → fails w c = true →
  r = Throw (ApiError c)
  ∧ last (calls w') = Some c
  ∧ userInternalData w' = userInternalData w
  ∧ ((c = statisticsWrite w ∧ playerStatistics w' = playerStatistics w)
     ∨ (c = dataWrite playerMove w
        ∧ fails w (statisticsWrite w) = false
        ∧ movesMadeOf w' = Some (movesMadeToWrite w))).
Proof.
  cbv zeta. rewrite processPlayerMove_run. cbv zeta.
  destruct (fails w (readRequest w)) eqn:E0;
    [|destruct (tooSoon w) eqn:E1;
      [|destruct (fails w (statisticsRequest w)) eqn:E2;
        [|destruct (fails w (statisticsWrite w)) eqn:E3;
          [|destruct (fails w (dataWrite playerMove w)) eqn:E4]]]];
    cbn [fst snd]; intros Hin Hw Hf;
    unfold callsSince in Hin; simpl in Hin;
    rewrite <- ?app_assoc in Hin; rewrite drop_app_length in Hin;
    simpl in Hin;
    repeat (apply elem_of_cons in Hin as [->|Hin]; try discriminate Hw;
            try congruence);
    try (by apply elem_of_nil in Hin).
  - split; [done|]. split; [simpl; by rewrite last_snoc|].
    split; [done|]. by left.
  - split; [done|]. split; [simpl; by rewrite last_snoc|].
    split; [done|]. right. split; [done|]. split; [done|].
    apply movesMadeOf_statisticsWritten.
Qed.

(** C3, as amended: the function validates nothing itself, and it does not
    look into the payload.  For every player id, the empty one included,
    and every payload:
    - the first request of the call is the read of [last_move_timestamp]
      for [currentPlayerId];
    - the call returns [false] exactly when this read is carried out and
      the cooldown check, which sees the clock and the stored timestamp
      only, turns the move down;
    - what the call throws is the error of its last request, which the
      platform refused;
    - on a platform that carries out the requests the call returns [true]
      unless the cooldown check turns the move down;
    - the payload occurs in the data write alone, where an accepted move
      leaves its serialised text: a call that does not get to the data
      write runs the same for every payload, and so do calls for payloads
      with the same serialised text. *)
Theorem C3_no_validation_of_its_own (playerMove : JSValue) (w : World) :
  let r := (processPlayerMove playerMove w).1 in
  let w' := (processPlayerMove playerMove w).2 in
  let requests := callsSince w w' in
  (∃ rest, requests = readRequest w :: rest)
  ∧ (r = Normal false ↔ fails w (readRequest w) = false ∧ tooSoon w = true)
  ∧ (∀ e, r = Throw e →
       ∃ c, e = ApiError c ∧ last requests = Some c ∧ fails w c = true)
  ∧ (reliable w → r = Normal (negb (tooSoon w)))
  ∧ (∀ c, c ∈ requests →
       c = dataWrite playerMove w
       ∨ c ∈ [readRequest w; statisticsRequest w; statisticsWrite w])
  ∧ (r = Normal true → lastMoveOf w' = Some (JSON_stringify playerMove))
  ∧ (∀ other, dataWrite playerMove w ∉ requests →
       processPlayerMove other w = processPlayerMove playerMove w)
  ∧ (∀ other, JSON_stringify other = JSON_stringify playerMove →
       processPlayerMove other w = processPlayerMove playerMove w).
Proof.
  cbv zeta.
  split; [|split; [apply result_false_iff|]].
  { rewrite processPlayerMove_run. cbv zeta.
    repeat case_match; cbn [snd]; unfold callsSince; simpl;
      rewrite <- ?app_assoc; rewrite drop_app_length; simpl; eauto. }
  split; [|split; [apply result_reliable|]].
  { intros e. rewrite processPlayerMove_run. cbv zeta.
    destruct (fails w (readRequest w)) eqn:E0;
      [|destruct (tooSoon w) eqn:E1;
        [|destruct (fails w (statisticsRequest w)) eqn:E2;
          [|destruct (fails w (statisticsWrite w)) eqn:E3;
            [|destruct (fails w (dataWrite playerMove w)) eqn:E4]]]];
      cbn [fst snd]; intros [= <-] || intros [=];
      eexists; (split; [done|]); (split; [|done]);
      unfold callsSince; simpl; rewrite <- ?app_assoc;
      rewrite drop_app_length; done. }
  split; [|split; [intros Hres; by apply committed_run|]].
  { intros c. rewrite processPlayerMove_run. cbv zeta.
    repeat case_match; cbn [snd]; unfold callsSince; simpl;
      rewrite <- ?app_assoc; rewrite drop_app_length; simpl;
      intros Hin;
      repeat (apply elem_of_cons in Hin as [-> | Hin];
              [first [by left | right; set_solver]|]);
      by apply elem_of_nil in Hin. }
  split.
  - intros other. rewrite !processPlayerMove_run. cbv zeta.
    destruct (fails w (readRequest w)) eqn:E0; [done|].
    destruct (tooSoon w) eqn:E1; [done|].
    destruct (fails w (statisticsRequest w)) eqn:E2; [done|].
    destruct (fails w (statisticsWrite w)) eqn:E3; [done|].
    intros Hnot. exfalso. apply Hnot.
    destruct (fails w (dataWrite playerMove w)); cbn [snd];
      unfold callsSince; simpl; rewrite <- ?app_assoc;
      rewrite drop_app_length; set_solver.
  - intros other Heq. rewrite !processPlayerMove_run. cbv zeta.
    unfold dataWrite. by rewrite Heq.
Qed.

(** C4: with a stored timestamp that parses to [last], the call returns
    false exactly when the elapsed time is below 15 seconds; from 15 seconds
    on, and so at exactly 15 seconds, the move is accepted. *)
Theorem C4_rejected_iff_elapsed_below_cooldown
    (playerMove : JSValue) (w : World) (text : string) (last : Q) :
  fails w (readRequest w) = false →
  lastMoveTimestampOf w = Some text →
  Date_parse text = Number.Fin last →
  ((processPlayerMove playerMove w).1 = Normal false
     ↔ (elapsedSeconds (clock w) last < 15)%Q)
  ∧ (reliable w → (15 <= elapsedSeconds (clock w) last)%Q →
       (processPlayerMove playerMove w).1 = Normal true)
  ∧ (reliable w → (elapsedSeconds (clock w) last == 15)%Q →
       (processPlayerMove playerMove w).1 = Normal true).
Proof.
  intros Hread Hts Hparse.
  assert (reliable w → (15 <= elapsedSeconds (clock w) last)%Q →
          (processPlayerMove playerMove w).1 = Normal true) as Hge.
  { intros Hr Hle. rewrite result_reliable by done.
    by rewrite (proj2 (tooSoon_Fin_false w text last Hts Hparse) Hle). }
  split; [|split].
  - rewrite result_false_iff, (tooSoon_Fin w text last Hts Hparse).
    split; [by intros [_ H]|done].
  - exact Hge.
  - intros Hr Heq. apply Hge; [done|]. rewrite Heq. apply Qle_refl.
Qed.

(** C5: a call rejected by the cooldown returns false, has sent the read
    and nothing else, and leaves the internal data and the statistics, so
    [movesMade], [last_move_timestamp] and [last_move], as they were. *)
Theorem C5_cooldown_rejection_writes_nothing
    (playerMove : JSValue) (w : World) (text : string) (last : Q) :
  fails w (readRequest w) = false →
  lastMoveTimestampOf w = Some text →
  Date_parse text = Number.Fin last →
  (elapsedSeconds (clock w) last < 15)%Q →
  let w' := (processPlayerMove playerMove w).2 in
  (processPlayerMove playerMove w).1 = Normal false
  ∧ callsSince w w' = [readRequest w]
  ∧ userInternalData w' = userInternalData w
  ∧ playerStatistics w' = playerStatistics w
  ∧ movesMadeOf w' = movesMadeOf w
  ∧ lastMoveTimestampOf w' = lastMoveTimestampOf w
  ∧ lastMoveOf w' = lastMoveOf w.
Proof.
  intros Hread Hts Hparse Hlt. cbv zeta.
  rewrite processPlayerMove_run. cbv zeta.
  rewrite Hread, (proj2 (tooSoon_Fin w text last Hts Hparse) Hlt).
  split; [done|]. split; [|done].
  unfold callsSince. simpl. by rewrite drop_app_length.
Qed.

(** C6: two calls in the same world that differ in the payload only
    return the same boolean, and that boolean is the specification's
    function of the clock, the stored timestamp and the cooldown. *)
Theorem C6_decision_ignores_payload (move1 move2 : JSValue) (w : World) :
  (∀ b1 b2, (processPlayerMove move1 w).1 = Normal b1 →
            (processPlayerMove move2 w).1 = Normal b2 → b1 = b2)
  ∧ ((processPlayerMove move1 w).1 = Normal false
     ↔ (processPlayerMove move2 w).1 = Normal false)
  ∧ (∀ b, (processPlayerMove move1 w).1 = Normal b →
          b = moveAllowed Date_parse (clock w) (lastMoveTimestampOf w) 15).
Proof.
  split; [|split].
  - intros b1 b2 H1 H2.
    apply result_is_decision in H1, H2. congruence.
  - by rewrite !result_false_iff.
  - intros b H. rewrite <- tooSoon_moveAllowed.
    by apply result_is_decision in H.
Qed.

(** C7: a stored timestamp that is no date never makes the call return
    false; the call ends as it would for a player without the key, and
    with a platform that carries out every request the move is accepted. *)
Theorem C7_unparseable_timestamp_is_no_prior_move
    (playerMove : JSValue) (w : World) (text : string) :
  lastMoveTimestampOf w = Some text →
  Date_parse text = Number.NaN →
  (processPlayerMove playerMove w).1 ≠ Normal false
  ∧ (processPlayerMove playerMove w).1
    = (processPlayerMove playerMove (forgetLastMoveTimestamp w)).1
  ∧ (reliable w →
     (processPlayerMove playerMove w).1 = Normal true
     ∧ lastMoveTimestampOf (processPlayerMove playerMove w).2
       = Some (Date_toUTCString (clock w))).
Proof.
  intros Hts Hnan. pose proof (tooSoon_NaN w text Hts Hnan) as Hs.
  split; [|split].
  - rewrite result_false_iff. intros [_ H]. congruence.
  - rewrite !processPlayerMove_run. cbv zeta. rewrite Hs, tooSoon_forget.
    change (fails (forgetLastMoveTimestamp w)) with (fails w).
    change (readRequest (forgetLastMoveTimestamp w)) with (readRequest w).
    change (statisticsRequest (forgetLastMoveTimestamp w))
      with (statisticsRequest w).
    change (statisticsWrite (forgetLastMoveTimestamp w))
      with (statisticsWrite w).
    change (dataWrite playerMove (forgetLastMoveTimestamp w))
      with (dataWrite playerMove w).
    repeat case_match; done.
  - intros Hr.
    assert ((processPlayerMove playerMove w).1 = Normal true) as Hres
      by by rewrite result_reliable, Hs.
    split; [done|]. by apply committed_run.
Qed.

(** C8: for a player without [last_move_timestamp] the call returns true
    and stores the current instant, as [new Date(now).toUTCString()], and
    the serialised move. *)
Theorem C8_first_move_accepted (playerMove : JSValue) (w : World) :
  lastMoveTimestampOf w = None →
  reliable w →
  (processPlayerMove playerMove w).1 = Normal true
  ∧ lastMoveTimestampOf (processPlayerMove playerMove w).2
    = Some (Date_toUTCString (clock w))
  ∧ lastMoveOf (processPlayerMove playerMove w).2
    = Some (JSON_stringify playerMove).
Proof.
  intros Hnone Hr.
  assert ((processPlayerMove playerMove w).1 = Normal true) as Hres
    by by rewrite result_reliable, (tooSoon_None w Hnone).
  split; [done|]. by apply committed_run.
Qed.

End Claims.

(** * The claims about the stored timestamp, with the built-ins of
    ECMA-262 *)
Section Reference.

#[local] Existing Instance reference_runtime.

(** What is stored reads back as the instant, cut to the second. *)
Lemma parse_toUTCString (now : Z) :
  0 <= now <= ES.maxTime →
  Date_parse (Date_toUTCString now) = Number.of_Z (1000 * (now / 1000)).
Proof.
  intros Hnow. simpl. unfold ES.parse.
  by rewrite ESFacts.parseUTCString_toUTCString.
Qed.

(** C1, on the call of scenario 4: the player has made five moves, the
    move is accepted, and the statistic that is persisted is 1, not 6. *)
Theorem C1_movesMade_restarts_from_one :
  (processPlayerMove Scenario.move Scenario.lateCall).1 = Normal true
  ∧ movesMadeOf Scenario.lateCall = Some 5
  ∧ movesMadeOf (processPlayerMove Scenario.move Scenario.lateCall).2
    = Some 1.
Proof. by vm_compute. Qed.

(** C2 fails as stated: when the platform refuses the data write, the call
    throws, yet [movesMade] has been written while neither
    [last_move_timestamp] nor [last_move] has. *)
Lemma C2_statistic_committed_without_timestamp :
  (processPlayerMove Scenario.move Scenario.interruptedCall).1
  = Throw (ApiError (dataWrite Scenario.move Scenario.interruptedCall))
  ∧ movesMadeOf Scenario.interruptedCall = None
  ∧ movesMadeOf (processPlayerMove Scenario.move Scenario.interruptedCall).2
    = Some 1
  ∧ lastMoveTimestampOf
      (processPlayerMove Scenario.move Scenario.interruptedCall).2 = None
  ∧ lastMoveOf
      (processPlayerMove Scenario.move Scenario.interruptedCall).2 = None.
Proof. by vm_compute. Qed.

(** C3 fails as stated: with an empty player id the call is not turned
    down before the platform is involved; the read goes out for the empty
    id and it is the platform's refusal that ends the call. *)
Lemma C3_empty_player_id_reaches_platform :
  currentPlayerId Scenario.anonymousCall = ""
  ∧ calls Scenario.anonymousCall = []
  ∧ calls (processPlayerMove Scenario.move Scenario.anonymousCall).2
    = [ApiGetUserInternalData "" ["last_move_timestamp"]]
  ∧ (processPlayerMove Scenario.move Scenario.anonymousCall).1
    = Throw (ApiError (ApiGetUserInternalData "" ["last_move_timestamp"])).
Proof. by vm_compute. Qed.

(** C9: the stored timestamp of a player never goes back.  Against a prior
    timestamp that is a time value [last], an accepted move stores the
    current instant, which reads back as a time value not below [last];
    any other call leaves the timestamp as it is. *)
Theorem C9_timestamp_never_decreases
    (playerMove : JSValue) (w : World) (text : string) (last : Z) :
  0 <= clock w <= ES.maxTime →
  lastMoveTimestampOf w = Some text →
  Date_parse text = Number.of_Z last →
  ((processPlayerMove playerMove w).1 = Normal true →
     lastMoveTimestampOf (processPlayerMove playerMove w).2
     = Some (Date_toUTCString (clock w))
     ∧ Date_parse (Date_toUTCString (clock w))
       = Number.of_Z (1000 * (clock w / 1000))
     ∧ last <= 1000 * (clock w / 1000))
  ∧ ∃ text' last',
      lastMoveTimestampOf (processPlayerMove playerMove w).2 = Some text'
      ∧ Date_parse text' = Number.of_Z last'
      ∧ last <= last'.
Proof.
  intros Hnow Hts Hparse.
  assert ((processPlayerMove playerMove w).1 = Normal true →
          last <= 1000 * (clock w / 1000)) as Hle.
  { intros Hres. apply result_is_decision in Hres.
    rewrite (tooSoon_time_value w text last Hts Hparse) in Hres.
    destruct (Z.ltb_spec (clock w - last) 15000); [discriminate|].
    Z.div_mod_to_equations; lia. }
  split.
  - intros Hres. split; [by apply committed_run|].
    split; [by apply parse_toUTCString|by apply Hle].
  - assert ((processPlayerMove playerMove w).1 = Normal true
            ∨ (processPlayerMove playerMove w).1 ≠ Normal true)
      as [Hres|Hres].
    { destruct (processPlayerMove playerMove w).1 as [[|]|e]; auto. }
    + exists (Date_toUTCString (clock w)), (1000 * (clock w / 1000)).
      split; [by apply committed_run|].
      split; [by apply parse_toUTCString|by apply Hle].
    + exists text, last. rewrite lastMoveTimestampOf_run by done.
      split; [done|]. split; [done|lia].
Qed.

(** C10: the stored text reads back as the instant without its
    milliseconds, up to 999 of them; the next call is therefore accepted
    as soon as the real elapsed time plus the dropped milliseconds reaches
    15 seconds, and two moves 14001 ms apart are both accepted. *)
Theorem C10_stored_timestamp_drops_milliseconds :
  (∀ now, 0 <= now <= ES.maxTime →
     Date_parse (Date_toUTCString now) = Number.of_Z (1000 * (now / 1000))
     ∧ 0 <= now - 1000 * (now / 1000) <= 999)
  ∧ (∀ (move1 move2 : JSValue) (w : World) (now2 : Z),
       0 <= clock w <= ES.maxTime → reliable w →
       (processPlayerMove move1 w).1 = Normal true →
       ((processPlayerMove move2
           (with_clock now2 (processPlayerMove move1 w).2)).1 = Normal true
        ↔ 15000 <= (now2 - clock w) + (clock w - 1000 * (clock w / 1000))))
  ∧ (∃ (w : World) (now2 : Z),
       now2 - clock w = 14001
       ∧ (processPlayerMove Scenario.move w).1 = Normal true
       ∧ (processPlayerMove Scenario.otherMove
            (with_clock now2 (processPlayerMove Scenario.move w).2)).1
         = Normal true).
Proof.
  split; [|split].
  - intros now Hnow. split; [by apply parse_toUTCString|].
    Z.div_mod_to_equations; lia.
  - intros move1 move2 w now2 Hnow Hr Hres.
    destruct (committed_run move1 w Hres) as [Hts _].
    pose proof (parse_toUTCString (clock w) Hnow) as Hparse.
    rewrite result_reliable by by apply reliable_run.
    rewrite (tooSoon_time_value
               (with_clock now2 (processPlayerMove move1 w).2) _ _ Hts Hparse).
    change (clock (with_clock now2 _)) with now2.
    destruct (Z.ltb_spec (now2 - 1000 * (clock w / 1000)) 15000); simpl.
    + split; [discriminate|lia].
    + split; [lia|done].
  - exists Scenario.lateInSecond, Scenario.soonAfter. by vm_compute.
Qed.

End Reference.

(** * The theorems at the scenarios *)
Section Witnesses.

#[local] Existing Instance reference_runtime.

Lemma carriesOutAll_reliable (w : World) :
  fails w = Scenario.carriesOutAll → reliable w.
Proof. intros H c. by rewrite H. Defined.

(** The refused data write of the interrupted call. *)
Lemma C2_failed_write_is_surfaced_witness :
  (dataWrite Scenario.move Scenario.interruptedCall
     ∈ callsSince Scenario.interruptedCall
         (processPlayerMove Scenario.move Scenario.interruptedCall).2
   ∧ isWrite (dataWrite Scenario.move Scenario.interruptedCall) = true
   ∧ fails Scenario.interruptedCall
       (dataWrite Scenario.move Scenario.interruptedCall) = true)
  ∧ (processPlayerMove Scenario.move Scenario.interruptedCall).1
    = Throw (ApiError (dataWrite Scenario.move Scenario.interruptedCall)).
Proof.
  assert (dataWrite Scenario.move Scenario.interruptedCall
            ∈ callsSince Scenario.interruptedCall
                (processPlayerMove Scenario.move Scenario.interruptedCall).2)
    as Hin by (vm_compute; repeat constructor).
  split; [by repeat split|].
  exact (proj1 (C2_failed_write_is_surfaced Scenario.move
                  Scenario.interruptedCall
                  (dataWrite Scenario.move Scenario.interruptedCall)
                  Hin eq_refl eq_refl)).
Defined.

(** Scenario 3: exactly 15 seconds after the last move. *)
Lemma C4_rejected_iff_elapsed_below_cooldown_witness :
  (fails Scenario.boundaryCall (readRequest Scenario.boundaryCall) = false
   ∧ lastMoveTimestampOf Scenario.boundaryCall = Some Scenario.storedT0
   ∧ Date_parse Scenario.storedT0 = Number.Fin (inject_Z Scenario.T0))
  ∧ (processPlayerMove Scenario.move Scenario.boundaryCall).1 = Normal true.
Proof.
  assert (lastMoveTimestampOf Scenario.boundaryCall = Some Scenario.storedT0)
    as Hts by (by vm_compute).
  assert (Date_parse Scenario.storedT0 = Number.Fin (inject_Z Scenario.T0))
    as Hparse by (by vm_compute).
  split; [by repeat split|].
  apply (proj2 (proj2 (C4_rejected_iff_elapsed_below_cooldown
                         Scenario.move Scenario.boundaryCall
                         Scenario.storedT0 (inject_Z Scenario.T0)
                         eq_refl Hts Hparse))).
  - by apply carriesOutAll_reliable.
  - by vm_compute.
Defined.

(** Scenario 2: 10 seconds after the last move. *)
Lemma C5_cooldown_rejection_writes_nothing_witness :
  (fails Scenario.earlyCall (readRequest Scenario.earlyCall) = false
   ∧ lastMoveTimestampOf Scenario.earlyCall = Some Scenario.storedT0
   ∧ Date_parse Scenario.storedT0 = Number.Fin (inject_Z Scenario.T0)
   ∧ (elapsedSeconds (clock Scenario.earlyCall) (inject_Z Scenario.T0)
      < 15)%Q)
  ∧ (processPlayerMove Scenario.move Scenario.earlyCall).1 = Normal false
  ∧ movesMadeOf (processPlayerMove Scenario.move Scenario.earlyCall).2
    = Some 5.
Proof.
  assert (elapsedSeconds (clock Scenario.earlyCall) (inject_Z Scenario.T0)
          < 15)%Q as Hlt by by vm_compute.
  assert (lastMoveTimestampOf Scenario.earlyCall = Some Scenario.storedT0)
    as Hts by (by vm_compute).
  assert (Date_parse Scenario.storedT0 = Number.Fin (inject_Z Scenario.T0))
    as Hparse by (by vm_compute).
  split; [by repeat split|].
  pose proof (C5_cooldown_rejection_writes_nothing
                Scenario.move Scenario.earlyCall Scenario.storedT0
                (inject_Z Scenario.T0) eq_refl Hts Hparse Hlt)
    as (Hres & _ & _ & _ & Hmoves & _).
  split; [exact Hres|]. rewrite Hmoves. by vm_compute.
Defined.

(** Scenario 2 again, with two different payloads. *)
Lemma C6_decision_ignores_payload_witness :
  (processPlayerMove Scenario.move Scenario.earlyCall).1 = Normal false
  ∧ (processPlayerMove Scenario.otherMove Scenario.earlyCall).1 = Normal false
  ∧ false = moveAllowed Date_parse (clock Scenario.earlyCall)
              (lastMoveTimestampOf Scenario.earlyCall) 15.
Proof.
  assert ((processPlayerMove Scenario.move Scenario.earlyCall).1
          = Normal false) as Hres by by vm_compute.
  split; [exact Hres|]. split.
  - exact (proj1 (proj1 (proj2 (C6_decision_ignores_payload
                                  Scenario.move Scenario.otherMove
                                  Scenario.earlyCall))) Hres).
  - exact (proj2 (proj2 (C6_decision_ignores_payload
                           Scenario.move Scenario.otherMove
                           Scenario.earlyCall)) false Hres).
Defined.

(** A stored timestamp that reads "yesterday". *)
Lemma C7_unparseable_timestamp_is_no_prior_move_witness :
  (lastMoveTimestampOf Scenario.garbledCall = Some "yesterday"
   ∧ Date_parse "yesterday" = Number.NaN)
  ∧ (processPlayerMove Scenario.move Scenario.garbledCall).1 = Normal true.
Proof.
  assert (lastMoveTimestampOf Scenario.garbledCall = Some "yesterday")
    as Hts by (by vm_compute).
  assert (Date_parse "yesterday" = Number.NaN) as Hparse by (by vm_compute).
  split; [by split|].
  apply (proj2 (proj2 (C7_unparseable_timestamp_is_no_prior_move
                         Scenario.move Scenario.garbledCall "yesterday"
                         Hts Hparse))).
  by apply carriesOutAll_reliable.
Defined.

(** Scenario 1: the first move of a player. *)
Lemma C8_first_move_accepted_witness :
  lastMoveTimestampOf Scenario.firstCall = None
  ∧ (processPlayerMove Scenario.move Scenario.firstCall).1 = Normal true
  ∧ lastMoveTimestampOf (processPlayerMove Scenario.move Scenario.firstCall).2
    = Some Scenario.storedT0.
Proof.
  assert (lastMoveTimestampOf Scenario.firstCall = None)
    as Hnone by (by vm_compute).
  split; [exact Hnone|].
  destruct (C8_first_move_accepted Scenario.move Scenario.firstCall Hnone
              (carriesOutAll_reliable Scenario.firstCall eq_refl))
    as (Hres & Hts & _).
  split; [exact Hres|]. rewrite Hts. by vm_compute.
Defined.

(** Scenario 4: 20 seconds after the last move. *)
Lemma C9_timestamp_never_decreases_witness :
  (0 <= clock Scenario.lateCall <= ES.maxTime
   ∧ lastMoveTimestampOf Scenario.lateCall = Some Scenario.storedT0
   ∧ Date_parse Scenario.storedT0 = Number.of_Z Scenario.T0
   ∧ (processPlayerMove Scenario.move Scenario.lateCall).1 = Normal true)
  ∧ Scenario.T0 <= 1000 * (clock Scenario.lateCall / 1000).
Proof.
  assert (0 <= clock Scenario.lateCall <= ES.maxTime) as Hnow
    by (by vm_compute).
  assert ((processPlayerMove Scenario.move Scenario.lateCall).1 = Normal true)
    as Hres by by vm_compute.
  assert (lastMoveTimestampOf Scenario.lateCall = Some Scenario.storedT0)
    as Hts by (by vm_compute).
  assert (Date_parse Scenario.storedT0 = Number.of_Z Scenario.T0)
    as Hparse by (by vm_compute).
  split; [by repeat split|].
  apply (proj1 (C9_timestamp_never_decreases Scenario.move Scenario.lateCall
                  Scenario.storedT0 Scenario.T0 Hnow Hts Hparse) Hres).
Defined.

(** The instant [T0] + 999 ms. *)
Lemma C10_stored_timestamp_drops_milliseconds_witness :
  0 <= Scenario.T0 + 999 <= ES.maxTime
  ∧ Date_parse (Date_toUTCString (Scenario.T0 + 999))
    = Number.of_Z (1000 * ((Scenario.T0 + 999) / 1000)).
Proof.
  assert (0 <= Scenario.T0 + 999 <= ES.maxTime) as Hnow by (by vm_compute).
  split; [exact Hnow|].
  exact (proj1 (proj1 C10_stored_timestamp_drops_milliseconds
                  (Scenario.T0 + 999) Hnow)).
Defined.

(** The empty player id and a payload that is no object, on a platform
    that carries out whatever it is asked. *)
Lemma C3_no_validation_of_its_own_witness :
  (currentPlayerId Scenario.lenientCall = ""
   ∧ reliable Scenario.lenientCall)
  ∧ (processPlayerMove (JSNum 7) Scenario.lenientCall).1 = Normal true
  ∧ lastMoveOf (processPlayerMove (JSNum 7) Scenario.lenientCall).2
    = Some "7".
Proof.
  assert (reliable Scenario.lenientCall) as Hreliable
    by (by apply carriesOutAll_reliable).
  split; [by split|].
  destruct (C3_no_validation_of_its_own (JSNum 7) Scenario.lenientCall)
    as (_ & _ & _ & Hresult & _ & Hstored & _).
  split; [exact (Hresult Hreliable)|].
  exact (Hstored (Hresult Hreliable)).
Defined.

End Witnesses.

(** * More about the validator *)
Section ValidatorFacts.

Context {runtime : JSRuntime}.

Lemma callsSince_app (w w' : World) (l : list ApiCall) :
  calls w' = calls w ++ l → callsSince w w' = l.
Proof. unfold callsSince. intros ->. by rewrite drop_app_length. Qed.

(** X1: the requests of one call of [processPlayerMove] are the first [n]
    of four, in this order: the read of the timestamp, the read of the
    statistics, the statistics write and the data write, with [n] at least
    one.  Every request before the last one made was carried out.  The call
    returns [true] exactly when all four went out and the data write was
    carried out, and it returns [false] only after the first request
    alone. *)
Theorem X1_requests_in_order (playerMove : JSValue) (w : World) :
  let r := (processPlayerMove playerMove w).1 in
  let requests := callsSince w (processPlayerMove playerMove w).2 in
  ∃ n, (1 <= n <= 4)%nat
    ∧ requests = take n [readRequest w; statisticsRequest w; statisticsWrite w;
                     dataWrite playerMove w]
    ∧ (∀ i c, requests !! i = Some c → (S i < n)%nat → fails w c = false)
    ∧ (r = Normal true ↔ n = 4%nat ∧ fails w (dataWrite playerMove w) = false)
    ∧ (r = Normal false → n = 1%nat).
Proof.
  cbv zeta. rewrite processPlayerMove_run. cbv zeta.
  destruct (fails w (readRequest w)) eqn:E0;
    [|destruct (tooSoon w) eqn:E1;
      [|destruct (fails w (statisticsRequest w)) eqn:E2;
        [|destruct (fails w (statisticsWrite w)) eqn:E3;
          [|destruct (fails w (dataWrite playerMove w)) eqn:E4]]]];
    cbn [fst snd].
  1,2: exists 1%nat.
  3: exists 2%nat.
  4: exists 3%nat.
  5,6: exists 4%nat.
  all: (split; [lia|]).
  all: match goal with |- callsSince ?w0 ?w' = ?l ∧ _ =>
         assert (callsSince w0 w' = l) as Hsent
           by (apply callsSince_app; simpl; by rewrite <- ?app_assoc) end.
  all: rewrite Hsent; clear Hsent; (split; [done|]).
  all: (split; [intros [|[|[|[|i]]]] c Hc Hi; simpl in Hc; try lia;
             injection Hc as <-; done|]).
  all: split;
    [split; [try done; intros ?; try discriminate
            |intros [? ?]; try done; try lia; try congruence]
    |try done; try discriminate].
Qed.

Lemma statisticValue_upsert_ne
    (name : string) (s : Statistic) (l : list Statistic) :
  StatisticName s ≠ name →
  statisticValue name (server.upsert s l) = statisticValue name l.
Proof.
  intros Hne. unfold statisticValue. induction l as [|x l IH]; simpl.
  - by rewrite decide_False.
  - destruct (decide (StatisticName x = StatisticName s)) as [Heq|Hxs]; simpl.
    + rewrite !decide_False by congruence. simpl.
      by destruct (list_find _ l) as [[i y]|].
    + destruct (decide (StatisticName x = name)); [done|]. simpl.
      destruct (list_find _ (server.upsert s l)) as [[i y]|],
               (list_find _ l) as [[j z]|]; simpl in *; congruence.
Qed.

Lemma stores_run (m : JSValue) (w : World) :
  let w' := (processPlayerMove m w).2 in
  (playerStatistics w' = playerStatistics w
   ∨ playerStatistics w'
     = playerStatistics (statisticsWritten (movesMadeToWrite w) w))
  ∧ (userInternalData w' = userInternalData w
     ∨ userInternalData w'
       = userInternalData (dataWritten (Date_toUTCString (clock w))
                                       (JSON_stringify m) w))
  ∧ currentPlayerId w' = currentPlayerId w
  ∧ clock w' = clock w.
Proof.
  cbv zeta. rewrite processPlayerMove_run. cbv zeta.
  repeat case_match; cbn [snd]; auto.
Qed.

(** X2: whatever its outcome, one call of [processPlayerMove] leaves the
    data and the statistics of every other player, the current player's
    data under every key but [last_move_timestamp] and [last_move], and the
    current player's statistics of every name but [movesMade] as they
    were. *)
Theorem X2_other_entries_untouched (playerMove : JSValue) (w : World) :
  let w' := (processPlayerMove playerMove w).2 in
  (∀ id, id ≠ currentPlayerId w →
         dataOf w' id = dataOf w id ∧ statisticsOf w' id = statisticsOf w id)
  ∧ (∀ key, key ≠ "last_move_timestamp" → key ≠ "last_move" →
            dataOf w' (currentPlayerId w) !! key
            = dataOf w (currentPlayerId w) !! key)
  ∧ (∀ name, name ≠ "movesMade" →
             statisticValue name (statisticsOf w' (currentPlayerId w))
             = statisticValue name (statisticsOf w (currentPlayerId w))).
Proof.
  cbv zeta. destruct (stores_run playerMove w) as (Hs & Hd & _ & _).
  split; [|split].
  - intros id Hid. unfold dataOf, statisticsOf. split.
    + destruct Hd as [-> | ->]; [done|]. simpl. by rewrite lookup_insert_ne.
    + destruct Hs as [-> | ->]; [done|]. simpl. by rewrite lookup_insert_ne.
  - intros key H1 H2. unfold dataOf.
    destruct Hd as [-> | ->]; [done|]. simpl.
    rewrite lookup_insert_eq. simpl. by rewrite !lookup_insert_ne.
  - intros name Hname. unfold statisticsOf.
    destruct Hs as [-> | ->]; [done|]. simpl.
    rewrite lookup_insert_eq. simpl. by apply statisticValue_upsert_ne.
Qed.

Lemma logged_run (m : JSValue) (w : World) :
  logged (processPlayerMove m w).2
  = logged w ++ (if fails w (readRequest w) then [] else cooldownLog w).
Proof.
  rewrite processPlayerMove_run. cbv zeta.
  repeat case_match; cbn [snd]; simpl; by rewrite ?app_nil_r.
Qed.

(** X3: one call of [processPlayerMove] only adds to the log.  What it
    adds holds an error entry exactly when the call returns [false], and is
    empty exactly when the first read is refused or no timestamp is
    stored. *)
Theorem X3_error_logged_iff_rejected (playerMove : JSValue) (w : World) :
  let w' := (processPlayerMove playerMove w).2 in
  (∃ entries, logged w' = logged w ++ entries
     ∧ ((∃ message, LogError message ∈ entries)
        ↔ (processPlayerMove playerMove w).1 = Normal false)
     ∧ (entries = [] ↔ fails w (readRequest w) = true
                        ∨ lastMoveTimestampOf w = None)).
Proof.
  cbv zeta. eexists. split; [apply logged_run|].
  rewrite result_false_iff. unfold tooSoon, cooldownLog.
  destruct (fails w (readRequest w));
    [|destruct (lastMoveTimestampOf w) as [text|]];
    [| destruct (Number.ltb _ _) |].
  - split; [|by split; auto].
    split; [intros [? H]; by apply elem_of_nil in H|by intros []].
  - split; [|split; [done|by intros [|]]].
    split; [done|]. intros _. eexists. right. left.
  - split; [|split; [done|by intros [|]]].
    split; [|by intros []]. intros [msg H].
    apply elem_of_cons in H as [H|H]; [done|by apply elem_of_nil in H].
  - split; [|by split; auto].
    split; [intros [? H]; by apply elem_of_nil in H|by intros []].
Qed.

Lemma tooSoon_same (w w' : World) :
  clock w' = clock w → currentPlayerId w' = currentPlayerId w →
  userInternalData w' = userInternalData w → tooSoon w' = tooSoon w.
Proof.
  intros Hc Hp Hd. unfold tooSoon, lastMoveTimestampOf, dataOf.
  by rewrite Hc, Hp, Hd.
Qed.

(** X4: a rejected move does not restart the cooldown.  After a call that
    returned [false], a second call at the same instant, with any payload,
    returns [false] again, and the data and the statistics are still those
    from before the first call. *)
Theorem X4_rejection_repeats (move1 move2 : JSValue) (w : World) :
  (processPlayerMove move1 w).1 = Normal false →
  let w' := (processPlayerMove move1 w).2 in
  (processPlayerMove move2 w').1 = Normal false
  ∧ userInternalData (processPlayerMove move2 w').2 = userInternalData w
  ∧ playerStatistics (processPlayerMove move2 w').2 = playerStatistics w.
Proof.
  intros Hres. cbv zeta.
  pose proof Hres as [Hread Hsoon]%result_false_iff.
  assert ((processPlayerMove move1 w).2 = checked w) as ->.
  { rewrite processPlayerMove_run. cbv zeta. by rewrite Hread, Hsoon. }
  assert ((processPlayerMove move2 (checked w)).1 = Normal false) as Hres2.
  { apply result_false_iff. split; [exact Hread|].
    by rewrite (tooSoon_same w (checked w)). }
  split; [exact Hres2|].
  pose proof Hres2 as [Hread2 Hsoon2]%result_false_iff.
  rewrite processPlayerMove_run. cbv zeta. by rewrite Hread2, Hsoon2.
Qed.

(** X5: when no statistic of the player has the empty name, an accepted
    move stores [movesMade] = 1, whatever [movesMade] was before. *)
Theorem X5_movesMade_written_is_one (playerMove : JSValue) (w : World) :
  (processPlayerMove playerMove w).1 = Normal true →
  (∀ stat, stat ∈ statisticsOf w (currentPlayerId w) →
           StatisticName stat ≠ "") →
  movesMadeOf (processPlayerMove playerMove w).2 = Some 1.
Proof.
  intros Hres Hnames. rewrite committed_movesMade by done.
  by rewrite movesMadeToWrite_one.
Qed.

End ValidatorFacts.

(** * The handlers *)
Section HandlerFacts.

Context {runtime : JSRuntime}.

Lemma handler_bind_run {A B} (m : Handler A) (k : A → Handler B) (h : Host) :
  (m ≫= k) h =
  match m h with
  | (Returned a, h') => k a h'
  | (Raised f, h') => (Raised f, h')
  end.
Proof. reflexivity. Qed.

Lemma updateStatistic_run (name : string) (n : Z) (w : World) :
  let c := ApiUpdatePlayerStatistics (currentPlayerId w)
             [ {| StatisticName := name; Value := n |} ] in
  server.UpdatePlayerStatistics (currentPlayerId w)
    [ {| StatisticName := name; Value := n |} ] w
  = if fails w c then (Throw (ApiError c), sent c w)
    else (Normal tt,
          with_playerStatistics
            (<[currentPlayerId w :=
                 server.upsert {| StatisticName := name; Value := n |}
                   (statisticsOf w (currentPlayerId w))]>
               (playerStatistics w))
            (sent c w)).
Proof.
  cbv zeta. unfold server.UpdatePlayerStatistics.
  rewrite bind_run, send_run. by destruct (fails w _).
Qed.

Lemma updateData_run (data : list (string * string)) (w : World) :
  let c := ApiUpdateUserInternalData (currentPlayerId w) data in
  server.UpdateUserInternalData (currentPlayerId w) data w
  = if fails w c then (Throw (ApiError c), sent c w)
    else (Normal tt,
          with_userInternalData
            (<[currentPlayerId w :=
                 foldl (λ m kv, <[kv.1 := kv.2]> m)
                       (dataOf w (currentPlayerId w)) data]>
               (userInternalData w))
            (sent c w)).
Proof.
  cbv zeta. unfold server.UpdateUserInternalData.
  rewrite bind_run, send_run. by destruct (fails w _).
Qed.

(** Nothing but a statistic of the empty name enters the count of moves. *)
Lemma movesMade_fold_upsert (s : Statistic) (l : list Statistic) (acc : Z) :
  StatisticName s ≠ "" →
  foldl (λ movesMade stat,
           if decide (StatisticName stat = "") then Value stat else movesMade)
        acc (server.upsert s l)
  = foldl (λ movesMade stat,
             if decide (StatisticName stat = "") then Value stat else movesMade)
          acc l.
Proof.
  intros Hs. revert acc. induction l as [|x l IH]; intros acc; simpl.
  - by rewrite decide_False.
  - destruct (decide (StatisticName x = StatisticName s)) as [Heq|Hne]; simpl.
    + by rewrite !decide_False by congruence.
    + apply IH.
Qed.

(** The result of [processPlayerMove] depends on the world only through
    the clock, the player, the platform's answers, the stored timestamp
    and the statistics of the empty name. *)
Lemma result_same (m : JSValue) (w w' : World) :
  clock w' = clock w → currentPlayerId w' = currentPlayerId w →
  fails w' = fails w →
  lastMoveTimestampOf w' = lastMoveTimestampOf w →
  movesMadeToWrite w' = movesMadeToWrite w →
  (processPlayerMove m w').1 = (processPlayerMove m w).1.
Proof.
  intros Hc Hp Hf Hts Hm.
  assert (tooSoon w' = tooSoon w) as Hsoon
    by (unfold tooSoon; by rewrite Hts, Hc).
  rewrite !processPlayerMove_run. cbv zeta.
  unfold readRequest, statisticsRequest, statisticsWrite, dataWrite.
  rewrite Hsoon, Hf, Hp, Hc, Hm.
  by repeat case_match.
Qed.


Lemma completedLevel_run (level : string) (n : Z) (h : Host) :
  let w := platform h in
  let id := currentPlayerId w in
  let c1 := ApiUpdateUserInternalData id [("lastLevelCompleted", level)] in
  let w1 :=
    with_userInternalData
      (<[id := <["lastLevelCompleted" := level]> (dataOf w id)]>
         (userInternalData w)) (sent c1 w) in
  let c2 :=
    ApiUpdatePlayerStatistics id
      [ {| StatisticName := "level_monster_kills"; Value := n |} ] in
  let w2 :=
    with_playerStatistics
      (<[id := server.upsert
                 {| StatisticName := "level_monster_kills"; Value := n |}
                 (statisticsOf w id)]> (playerStatistics w)) (sent c2 w1) in
  let line1 :=
    NoteText Debug ("Set lastLevelCompleted for player " +:+ id
                    +:+ " to " +:+ level) in
  let line2 :=
    NoteText Debug ("Updated level_monster_kills stat for player " +:+ id
                    +:+ " to " +:+ JSON.numberString n) in
  completedLevel level n h =
  if fails w c1
  then (Raised (PlatformFailure (ApiError c1)),
        host (sent c1 w) (notes h) h)
  else if fails w c2
  then (Raised (PlatformFailure (ApiError c2)),
        host (sent c2 w1) (notes h ++ [line1]) h)
  else (Returned tt,
        host w2 ((notes h ++ [line1]) ++ [line2]) h).
Proof.
  cbv zeta.
  match goal with |- _ = if ?b then _ else _ => destruct b eqn:E1 end;
    [|match goal with |- _ = if ?b then _ else _ => destruct b eqn:E2 end];
    unfold completedLevel;
    rewrite handler_bind_run; unfold lift at 1;
    cbn [global platform notes host];
    rewrite handler_bind_run; unfold lift at 1; cbn [platform notes host];
    rewrite updateData_run; cbv zeta; rewrite E1; try reflexivity;
    cbn [foldl fst snd];
    rewrite handler_bind_run; unfold note at 1; cbn [platform notes host];
    rewrite handler_bind_run; unfold lift at 1; cbn [platform notes host];
    match goal with |- context [server.UpdatePlayerStatistics ?i ?r ?x] =>
      change (server.UpdatePlayerStatistics i r x)
        with (server.UpdatePlayerStatistics (currentPlayerId x) r x) end;
    rewrite updateStatistic_run; cbv zeta;
    match goal with |- context [fails ?x ?c] =>
      change (fails x c) with (fails (platform h) c) end;
    cbn [currentPlayerId with_userInternalData sent with_calls];
    rewrite E2; reflexivity.
Qed.


(** X11: on a platform that carries out every request, [completedLevel]
    returns, having stored the level name under [lastLevelCompleted] and the
    kill count as statistic [level_monster_kills] of the current player, and
    having changed no other key, no other statistic and no other player. *)
Theorem X11_completedLevel_stored
    (levelName : string) (monstersKilled : Z) (h : Host) :
  reliable (platform h) →
  let r := completedLevel levelName monstersKilled h in
  let w := platform h in
  let w' := platform r.2 in
  let id := currentPlayerId w in
  r.1 = Returned tt
  ∧ dataOf w' id !! "lastLevelCompleted" = Some levelName
  ∧ statisticValue "level_monster_kills" (statisticsOf w' id)
    = Some monstersKilled
  ∧ (∀ key, key ≠ "lastLevelCompleted" →
            dataOf w' id !! key = dataOf w id !! key)
  ∧ (∀ name, name ≠ "level_monster_kills" →
             statisticValue name (statisticsOf w' id)
             = statisticValue name (statisticsOf w id))
  ∧ (∀ other, other ≠ id →
              dataOf w' other = dataOf w other
              ∧ statisticsOf w' other = statisticsOf w other).
Proof.
  intros Hr. cbv zeta. rewrite completedLevel_run. cbv zeta.
  rewrite !Hr. cbn [fst snd platform host].
  unfold dataOf, statisticsOf. simpl. rewrite !lookup_insert_eq. simpl.
  split; [done|]. split; [by rewrite lookup_insert_eq|].
  split; [apply statisticValue_upsert|].
  split; [intros key Hkey; by rewrite lookup_insert_ne|].
  split; [intros name Hname; by apply statisticValue_upsert_ne|].
  intros other Hother. by rewrite !lookup_insert_ne.
Qed.

(** X12: the two writes of [completedLevel] are not one step.  When the
    data write is refused, the handler throws that error after this one
    request, with nothing stored and nothing logged.  When the data write
    is carried out and the statistics write is refused, the handler throws
    that error with [lastLevelCompleted] already stored, the statistics
    unchanged and the first debug line logged. *)
Theorem X12_completedLevel_not_atomic
    (levelName : string) (monstersKilled : Z) (h : Host) :
  let r := completedLevel levelName monstersKilled h in
  let w := platform h in
  let w' := platform r.2 in
  let id := currentPlayerId w in
  let dataRequest :=
    ApiUpdateUserInternalData id [("lastLevelCompleted", levelName)] in
  let statisticsRequest :=
    ApiUpdatePlayerStatistics id
      [ {| StatisticName := "level_monster_kills";
           Value := monstersKilled |} ] in
  (fails w dataRequest = true →
     r.1 = Raised (PlatformFailure (ApiError dataRequest))
     ∧ callsSince w w' = [dataRequest]
     ∧ userInternalData w' = userInternalData w
     ∧ playerStatistics w' = playerStatistics w
     ∧ notes r.2 = notes h)
  ∧ (fails w dataRequest = false → fails w statisticsRequest = true →
     r.1 = Raised (PlatformFailure (ApiError statisticsRequest))
     ∧ callsSince w w' = [dataRequest; statisticsRequest]
     ∧ dataOf w' id !! "lastLevelCompleted" = Some levelName
     ∧ playerStatistics w' = playerStatistics w
     ∧ notes r.2
       = notes h ++ [NoteText Debug
                       ("Set lastLevelCompleted for player " +:+ id
                        +:+ " to " +:+ levelName)]).
Proof.
  cbv zeta. rewrite completedLevel_run. cbv zeta. split.
  - intros ->. cbn [fst snd platform notes host].
    split; [done|]. split; [|done].
    apply callsSince_app. done.
  - intros -> ->. cbn [fst snd platform notes host].
    split; [done|].
    split; [apply callsSince_app; simpl; by rewrite <- app_assoc|].
    split; [|done].
    unfold dataOf. simpl. rewrite lookup_insert_eq. simpl.
    by rewrite lookup_insert_eq.
Qed.


Lemma makeAPICall_run (w : World) :
  let c := ApiUpdatePlayerStatistics (currentPlayerId w)
             [ {| StatisticName := "Level"; Value := 2 |} ] in
  makeAPICall w
  = if fails w c then (Throw (ApiError c), sent c w)
    else (Normal tt,
          with_playerStatistics
            (<[currentPlayerId w :=
                 server.upsert {| StatisticName := "Level"; Value := 2 |}
                   (statisticsOf w (currentPlayerId w))]>
               (playerStatistics w))
            (sent c w)).
Proof. exact (updateStatistic_run "Level" 2 w). Qed.

Lemma upsert_upsert (s : Statistic) (l : list Statistic) :
  server.upsert s (server.upsert s l) = server.upsert s l.
Proof.
  induction l as [|x l IH]; simpl.
  - by rewrite decide_True.
  - destruct (decide (StatisticName x = StatisticName s)) as [Heq|Hne]; simpl.
    + by rewrite decide_True.
    + rewrite decide_False by done. by rewrite IH.
Qed.

(** X13: on a platform that carries out every request, [makeAPICall] sets
    statistic [Level] of the current player to 2 and leaves the other
    statistics as they were; a second call changes no statistic, and
    neither call changes the players' data. *)
Theorem X13_makeAPICall_idempotent (w : World) :
  reliable w →
  let w1 := (makeAPICall w).2 in
  let w2 := (makeAPICall w1).2 in
  let id := currentPlayerId w in
  (makeAPICall w).1 = Normal tt
  ∧ statisticValue "Level" (statisticsOf w1 id) = Some 2
  ∧ (∀ name, name ≠ "Level" →
             statisticValue name (statisticsOf w1 id)
             = statisticValue name (statisticsOf w id))
  ∧ playerStatistics w2 = playerStatistics w1
  ∧ userInternalData w2 = userInternalData w.
Proof.
  intros Hr. cbv zeta. rewrite (makeAPICall_run w). cbv zeta. rewrite Hr.
  cbn [fst snd]. rewrite makeAPICall_run. cbv zeta.
  match goal with |- context [fails ?x ?c] =>
    change (fails x c) with (fails w c) end.
  rewrite Hr. cbn [snd].
  unfold statisticsOf. simpl. rewrite !lookup_insert_eq. simpl.
  split; [done|]. split; [apply statisticValue_upsert|].
  split; [intros name Hname; by apply statisticValue_upsert_ne|].
  split; [|done]. by rewrite insert_insert_eq, upsert_upsert.
Qed.

Lemma movesMadeToWrite_upsert (s : Statistic) (w w' : World) :
  StatisticName s ≠ "" →
  currentPlayerId w' = currentPlayerId w →
  statisticsOf w' (currentPlayerId w)
  = server.upsert s (statisticsOf w (currentPlayerId w)) →
  movesMadeToWrite w' = movesMadeToWrite w.
Proof.
  intros Hs Hp Hst. unfold movesMadeToWrite. rewrite Hp, Hst.
  by rewrite movesMade_fold_upsert.
Qed.

Lemma makeAPICall_verdict (m : JSValue) (w : World) :
  (processPlayerMove m (makeAPICall w).2).1 = (processPlayerMove m w).1.
Proof.
  rewrite makeAPICall_run. cbv zeta.
  destruct (fails w _); cbn [snd]; apply result_same; try done.
  apply (movesMadeToWrite_upsert {| StatisticName := "Level"; Value := 2 |});
    [done|done|].
  unfold statisticsOf at 1. simpl. by rewrite lookup_insert_eq.
Qed.

Lemma completedLevel_verdict (m : JSValue) (level : string) (n : Z) (h : Host) :
  (processPlayerMove m (platform (completedLevel level n h).2)).1
  = (processPlayerMove m (platform h)).1.
Proof.
  rewrite completedLevel_run. cbv zeta.
  assert (lastMoveTimestampOf
            (with_userInternalData
               (<[currentPlayerId (platform h) :=
                    <["lastLevelCompleted" := level]>
                      (dataOf (platform h) (currentPlayerId (platform h)))]>
                  (userInternalData (platform h))) (platform h))
          = lastMoveTimestampOf (platform h)) as Hts.
  { unfold lastMoveTimestampOf, dataOf at 1. simpl.
    rewrite lookup_insert_eq. simpl. by rewrite lookup_insert_ne. }
  destruct (fails (platform h) _); [|destruct (fails (platform h) _)];
    cbn [snd platform host]; apply result_same; try done.
  apply (movesMadeToWrite_upsert
           {| StatisticName := "level_monster_kills"; Value := n |});
    [done|done|].
  unfold statisticsOf at 1. simpl. by rewrite lookup_insert_eq.
Qed.


(** The handler up to and including its write, when the statistic value
    can be turned into text. *)
Lemma unlockHighSkillContent_run (context event value : option JSValue)
    (xp : string) (h : Host) :
  JS.get "playStreamEvent" context = Some event →
  JS.get "StatisticValue" event = Some value →
  JS.callToString value = Some xp →
  let w := platform h in
  let id := currentPlayerId w in
  let c := ApiUpdateUserInternalData id
             [ ("HighSkillContent", "true"); ("XPAtHighSkillUnlock", xp) ] in
  let w1 :=
    with_userInternalData
      (<[id := <["XPAtHighSkillUnlock" := xp]>
                 (<["HighSkillContent" := "true"]> (dataOf w id))]>
         (userInternalData w)) (sent c w) in
  let h1 := host w1 (notes h) h in
  unlockHighSkillContent context h =
  if fails w c
  then (Raised (PlatformFailure (ApiError c)),
        host (sent c w) (notes h) h)
  else
    match JS.get "playerProfile" context with
    | Some (Some profile) =>
        match JS.get "DisplayName" (Some profile) ≫= JS.ToString with
        | Some name =>
            (Returned (JSObject [("profile", profile)]),
             host w1
               (notes h
                ++ [NoteText Info ("Unlocked HighSkillContent for " +:+ name)])
               h)
        | None => (Raised TypeError, h1)
        end
    | _ => (Raised TypeError, h1)
    end.
Proof.
  intros Hev Hval Hxp. cbv zeta. unfold unlockHighSkillContent.
  rewrite handler_bind_run. unfold property at 1. rewrite Hev.
  cbn [mret Handler_ret].
  rewrite handler_bind_run. unfold lift at 1. cbn [global platform notes host].
  rewrite handler_bind_run. unfold property at 1. rewrite Hval.
  cbn [mret Handler_ret].
  rewrite handler_bind_run. rewrite Hxp. cbn [mret Handler_ret].
  rewrite handler_bind_run. unfold lift at 1. cbn [platform notes host].
  rewrite updateData_run. cbv zeta.
  destruct (fails (platform h) _); [done|].
  cbn [foldl fst snd].
  rewrite handler_bind_run. unfold property at 1.
  destruct (JS.get "playerProfile" context) as [[profile|]|] eqn:Hp;
    cbn [mret Handler_ret raise]; try done.
  - rewrite handler_bind_run. unfold property at 1.
    destruct (JS.get "DisplayName" (Some profile)) as [display|] eqn:Hd;
      cbn [mret Handler_ret raise mbind option_bind]; [|done].
    rewrite handler_bind_run. unfold text at 1.
    destruct (JS.ToString display) as [name|]; cbn [mret Handler_ret raise];
      done.
Qed.

Lemma JS_get_None (name : string) (value : option JSValue) :
  JS.get name value = None ↔ value = None ∨ value = Some JSNull.
Proof.
  unfold JS.get. destruct value as [[]|]; split; intros H; auto;
    (discriminate || destruct H as [H|H]; discriminate).
Qed.

(** Below [2^53] the text of an integer is its decimal representation. *)
Lemma numberText_safe (n : Z) :
  Z.abs n < 2 ^ 53 → JS.numberText n = JSON.numberString n.
Proof.
  intros Hn.
  assert ((Z.abs n <? 2 ^ 53) = true) as Hlt by (by apply Z.ltb_lt).
  unfold JS.numberText, JS.nearestNumber, JSON.numberString.
  cbv zeta. by rewrite !Hlt.
Qed.

(** X14: [unlockHighSkillContent] writes before it looks at the profile.
    For an event whose [StatisticValue] is the number written as the
    integer [n], and a platform that carries out the write, the one request
    stores [HighSkillContent] = [true] and [XPAtHighSkillUnlock] = the text
    that [toString] gives for [n], and changes no statistic.  That text is
    the decimal representation of [n] as long as [n] is below [2^53] in
    magnitude; beyond, it is the text of the nearest Number, which from
    [10^21] on has an exponent.  When the context has no profile (or
    [null]) the handler then throws a TypeError, the data staying written
    and nothing logged; with a profile whose [DisplayName] is a text it
    logs one line and returns the profile. *)
Theorem X14_unlock_stored_before_profile
    (context event : option JSValue) (n : Z) (h : Host) :
  JS.get "playStreamEvent" context = Some event →
  JS.get "StatisticValue" event = Some (Some (JSNum n)) →
  let w := platform h in
  let id := currentPlayerId w in
  let c := ApiUpdateUserInternalData id
             [ ("HighSkillContent", "true");
               ("XPAtHighSkillUnlock", JS.numberText n) ] in
  fails w c = false →
  let r := unlockHighSkillContent context h in
  let w' := platform r.2 in
  callsSince w w' = [c]
  ∧ dataOf w' id !! "HighSkillContent" = Some "true"
  ∧ dataOf w' id !! "XPAtHighSkillUnlock" = Some (JS.numberText n)
  ∧ (Z.abs n < 2 ^ 53 →
     dataOf w' id !! "XPAtHighSkillUnlock" = Some (JSON.numberString n))
  ∧ playerStatistics w' = playerStatistics w
  ∧ (JS.get "playerProfile" context = Some None
     ∨ JS.get "playerProfile" context = Some (Some JSNull) →
     r.1 = Raised TypeError ∧ notes r.2 = notes h)
  ∧ (∀ profile name,
       JS.get "playerProfile" context = Some (Some profile) →
       JS.get "DisplayName" (Some profile) = Some (Some (JSString name)) →
       r.1 = Returned (JSObject [("profile", profile)])
       ∧ notes r.2
         = notes h ++ [NoteText Info
                         ("Unlocked HighSkillContent for " +:+ name)]).
Proof.
  intros Hev Hval. cbv zeta. intros Hc.
  rewrite (unlockHighSkillContent_run context event (Some (JSNum n))
             (JS.numberText n) h Hev Hval eq_refl).
  cbv zeta. rewrite Hc.
  set (w1 := with_userInternalData _ _).
  assert (platform
            (match JS.get "playerProfile" context with
             | Some (Some profile) =>
                 match JS.get "DisplayName" (Some profile) ≫= JS.ToString with
                 | Some name =>
                     (Returned (JSObject [("profile", profile)]),
                      host w1
                        (notes h
                         ++ [NoteText Info
                               ("Unlocked HighSkillContent for " +:+ name)])
                        h)
                 | None => (Raised TypeError,
                            host w1 (notes h) h)
                 end
             | _ => (Raised TypeError, host w1 (notes h) h)
             end).2 = w1) as ->.
  { destruct (JS.get "playerProfile" context) as [[profile|]|]; try done.
    by destruct (_ ≫= _). }
  subst w1.
  split; [apply callsSince_app; done|].
  unfold dataOf. simpl. rewrite !lookup_insert_eq. simpl.
  split; [by rewrite lookup_insert_ne, lookup_insert_eq|].
  split; [by rewrite lookup_insert_eq|].
  split; [intros Hn; by rewrite lookup_insert_eq, numberText_safe|].
  split; [done|]. split.
  - intros [-> | ->]; [done|].
    change (JS.get "DisplayName" (Some JSNull)) with (@None (option JSValue)).
    done.
  - intros profile name -> ->. done.
Qed.

Lemma unlockHighSkillContent_verdict (m : JSValue) (context : option JSValue)
    (h : Host) :
  (processPlayerMove m (platform (unlockHighSkillContent context h).2)).1
  = (processPlayerMove m (platform h)).1.
Proof.
  destruct (JS.get "playStreamEvent" context) as [event|] eqn:Hev.
  2: { unfold unlockHighSkillContent. rewrite handler_bind_run.
       unfold property at 1. by rewrite Hev. }
  destruct (JS.get "StatisticValue" event) as [value|] eqn:Hval.
  2: { unfold unlockHighSkillContent. rewrite handler_bind_run.
       unfold property at 1. rewrite Hev. cbn [mret Handler_ret].
       rewrite handler_bind_run. unfold lift at 1.
       cbn [global platform notes host].
       rewrite handler_bind_run. unfold property at 1. by rewrite Hval. }
  destruct (JS.callToString value) as [xp|] eqn:Hxp.
  2: { unfold unlockHighSkillContent. rewrite handler_bind_run.
       unfold property at 1. rewrite Hev. cbn [mret Handler_ret].
       rewrite handler_bind_run. unfold lift at 1.
       cbn [global platform notes host].
       rewrite handler_bind_run. unfold property at 1. rewrite Hval.
       cbn [mret Handler_ret]. rewrite handler_bind_run. by rewrite Hxp. }
  rewrite (unlockHighSkillContent_run context event value xp h Hev Hval Hxp).
  cbv zeta.
  assert (lastMoveTimestampOf
            (with_userInternalData
               (<[currentPlayerId (platform h) :=
                    <["XPAtHighSkillUnlock" := xp]>
                      (<["HighSkillContent" := "true"]>
                         (dataOf (platform h) (currentPlayerId (platform h))))]>
                  (userInternalData (platform h))) (platform h))
          = lastMoveTimestampOf (platform h)) as Hts.
  { unfold lastMoveTimestampOf, dataOf at 1. simpl.
    rewrite lookup_insert_eq. simpl. by rewrite !lookup_insert_ne. }
  destruct (fails (platform h) _); [by apply result_same|].
  destruct (JS.get "playerProfile" context) as [[profile|]|];
    [destruct (_ ≫= _)| |]; cbn [snd platform host]; by apply result_same.
Qed.


(** X15: [makeAPICall], [completedLevel] and [unlockHighSkillContent] do
    not change what [processPlayerMove] answers: a move validated after any
    of them, whether the handler returned or threw, gets the answer it
    would have got without. *)
Theorem X15_validator_undisturbed (playerMove : JSValue) :
  (∀ w, (processPlayerMove playerMove (makeAPICall w).2).1
        = (processPlayerMove playerMove w).1)
  ∧ (∀ levelName monstersKilled h,
       (processPlayerMove playerMove
          (platform (completedLevel levelName monstersKilled h).2)).1
       = (processPlayerMove playerMove (platform h)).1)
  ∧ (∀ context h,
       (processPlayerMove playerMove
          (platform (unlockHighSkillContent context h).2)).1
       = (processPlayerMove playerMove (platform h)).1).
Proof.
  split; [|split].
  - apply makeAPICall_verdict.
  - intros. apply completedLevel_verdict.
  - intros. apply unlockHighSkillContent_verdict.
Qed.

Lemma getPlayerStatistics_run (h : Host) :
  let w := platform h in
  let c := ApiGetPlayerStatistics (currentPlayerId w) in
  let s := snd <$> list_find (λ s, StatisticName s = "XP")
                     (statisticsOf w (currentPlayerId w)) in
  getPlayerStatistics h =
  if fails w c
  then (Raised (PlatformFailure (ApiError c)),
        host (sent c w) (notes h) h)
  else (match s with
        | Some s => Returned (Value s)
        | None => Raised TypeError
        end,
        host (sent c w) (notes h ++ [NoteStatistic Info s]) h).
Proof.
  cbv zeta. unfold getPlayerStatistics.
  rewrite handler_bind_run. unfold lift at 1. cbn [global platform notes host].
  rewrite handler_bind_run. unfold lift at 1. cbn [platform notes host].
  unfold server.GetPlayerStatistics. rewrite bind_run, send_run.
  destruct (fails (platform h) _); [done|].
  cbn [global]. rewrite handler_bind_run. unfold note at 1.
  cbn [platform notes host].
  change (statisticsOf (sent _ (platform h)) ?i)
    with (statisticsOf (platform h) i).
  by destruct (list_find _ _) as [[i s]|].
Qed.

(** X16: when the platform carries out the read, [getPlayerStatistics]
    makes this one request and stores nothing; it returns the value of the
    first statistic named [XP], and throws a TypeError when the player has
    none; either way it has logged the statistic, or [undefined], before. *)
Theorem X16_getPlayerStatistics_needs_XP (h : Host) :
  let w := platform h in
  let id := currentPlayerId w in
  let r := getPlayerStatistics h in
  let w' := platform r.2 in
  fails w (ApiGetPlayerStatistics id) = false →
  r.1 = match statisticValue "XP" (statisticsOf w id) with
        | Some xp => Returned xp
        | None => Raised TypeError
        end
  ∧ callsSince w w' = [ApiGetPlayerStatistics id]
  ∧ userInternalData w' = userInternalData w
  ∧ playerStatistics w' = playerStatistics w
  ∧ ∃ s, notes r.2 = notes h ++ [NoteStatistic Info s]
         ∧ Value <$> s = statisticValue "XP" (statisticsOf w id).
Proof.
  cbv zeta. intros Hf. rewrite getPlayerStatistics_run. cbv zeta.
  rewrite Hf. cbn [fst snd platform notes host]. unfold statisticValue.
  split; [by destruct (list_find _ _) as [[i s]|]|].
  split; [by apply callsSince_app|].
  split; [done|]. split; [done|]. eexists. split; done.
Qed.

Lemma helloWorld_run (args : option JSValue) (h : Host) :
  let message := "Hello " +:+ currentPlayerId (platform h) +:+ "!" in
  let input :=
    if JS.truthy args then
      match JS.get "inputValue" args with
      | Some value => if JS.truthy value then default JSNull value else JSNull
      | None => JSNull
      end
    else JSNull in
  helloWorld args h =
  (Returned (JSObject [("messageValue", JSString message)]),
   host (platform h)
     (notes h
      ++ [NoteText Info message;
          NoteObject Debug "helloWorld:" (JSObject [("input", input)])])
     h).
Proof.
  cbv zeta. unfold helloWorld.
  rewrite handler_bind_run. unfold lift at 1. cbn [global platform notes host].
  rewrite handler_bind_run. unfold note at 1. cbn [platform notes host].
  rewrite handler_bind_run.
  destruct (JS.truthy args) eqn:Ht.
  - rewrite handler_bind_run. unfold property at 1.
    destruct (JS.get "inputValue" args) as [value|] eqn:Hg.
    + cbn [mret Handler_ret]. rewrite handler_bind_run. unfold note at 1.
      cbn [platform notes host]. by rewrite <- app_assoc.
    + apply JS_get_None in Hg as [-> | ->]; discriminate.
  - cbn [mret Handler_ret]. rewrite handler_bind_run. unfold note at 1.
    cbn [platform notes host]. by rewrite <- app_assoc.
Qed.

(** X17: [helloWorld] never throws and never touches the platform.  For
    any arguments it returns the greeting of the current player, after
    logging the greeting and then the input: [args.inputValue] when that is
    truthy, [null] otherwise, also when there are no arguments. *)
Theorem X17_helloWorld_greets (args : option JSValue) (h : Host) :
  let r := helloWorld args h in
  let message := "Hello " +:+ currentPlayerId (platform h) +:+ "!" in
  r.1 = Returned (JSObject [("messageValue", JSString message)])
  ∧ platform r.2 = platform h
  ∧ ∃ input,
      notes r.2
      = notes h
        ++ [NoteText Info message;
            NoteObject Debug "helloWorld:" (JSObject [("input", input)])]
      ∧ (∀ value, JS.get "inputValue" args = Some value →
                  input = if JS.truthy value then default JSNull value
                          else JSNull)
      ∧ (JS.get "inputValue" args = None → input = JSNull).
Proof.
  cbv zeta. rewrite helloWorld_run. cbv zeta. cbn [fst snd platform notes host].
  split; [done|]. split; [done|]. eexists. split; [done|]. split.
  - intros value Hg. rewrite Hg.
    destruct (JS.truthy args) eqn:Ht; [done|].
    destruct args as [[]|]; try discriminate; simpl in Hg;
      injection Hg as <-; done.
  - intros ->. by destruct (JS.truthy args).
Qed.

Lemma RoomEventRaised_run (args : option JSValue) (h : Host) :
  RoomEventRaised args h =
  match JS.get "Data" args with
  | None => (Raised TypeError, h)
  | Some eventData =>
      match JS.get "GameId" args ≫= JS.ToString with
      | None => (Raised TypeError, h)
      | Some GameId =>
          match JS.get "eventType" eventData with
          | None => (Raised TypeError, h)
          | Some eventType =>
              match JS.ToString eventType with
              | None => (Raised TypeError, h)
              | Some eventTypeText =>
                  let line :=
                    NoteText Debug
                      ("Event Raised - Game: " +:+ GameId
                       +:+ " Event Type: " +:+ eventTypeText) in
                  let h1 := host (platform h) (notes h ++ [line]) h in
                  if JS.isString "playerMove" eventType then
                    match eventData with
                    | Some eventData =>
                        match processPlayerMove eventData (platform h) with
                        | (Normal _, w) =>
                            (Returned tt,
                             host w (notes h ++ [line]) h)
                        | (Throw e, w) =>
                            (Raised (PlatformFailure e),
                             host w (notes h ++ [line]) h)
                        end
                    | None => (Returned tt, h1)
                    end
                  else (Returned tt, h1)
              end
          end
      end
  end.
Proof.
  unfold RoomEventRaised.
  rewrite handler_bind_run. unfold property at 1.
  destruct (JS.get "Data" args) as [eventData|]; [|done].
  cbn [mret Handler_ret]. rewrite handler_bind_run. unfold property at 1.
  destruct (JS.get "GameId" args) as [GameId|]; [|done].
  cbn [mret Handler_ret mbind option_bind].
  rewrite handler_bind_run. unfold text at 1.
  destruct (JS.ToString GameId) as [gameText|]; [|done].
  cbn [mret Handler_ret]. rewrite handler_bind_run. unfold property at 1.
  destruct (JS.get "eventType" eventData) as [eventType|]; [|done].
  cbn [mret Handler_ret]. rewrite handler_bind_run. unfold text at 1.
  destruct (JS.ToString eventType) as [typeText|]; [|done].
  cbn [mret Handler_ret]. rewrite handler_bind_run. unfold note at 1.
  cbv zeta.
  destruct (JS.isString "playerMove" eventType); [|done].
  destruct eventData as [eventData|]; [|done].
  rewrite handler_bind_run. unfold lift. cbn [platform notes host].
  by destruct (processPlayerMove eventData (platform h)) as [[b|e] w].
Qed.

(** X8: for an event whose type is not the text [playerMove],
    [RoomEventRaised] leaves the platform alone: no request goes out and
    nothing is stored.  It either returns after logging one debug line, or
    throws a TypeError having logged nothing. *)
Theorem X8_RoomEventRaised_other_events (args : option JSValue) (h : Host) :
  (∀ eventData eventType,
     JS.get "Data" args = Some eventData →
     JS.get "eventType" eventData = Some eventType →
     JS.isString "playerMove" eventType = false) →
  let r := RoomEventRaised args h in
  platform r.2 = platform h
  ∧ ((r.1 = Returned tt ∧ ∃ line, notes r.2 = notes h ++ [NoteText Debug line])
     ∨ (r.1 = Raised TypeError ∧ notes r.2 = notes h)).
Proof.
  intros Hother. cbv zeta. rewrite RoomEventRaised_run.
  destruct (JS.get "Data" args) as [eventData|] eqn:Hd; [|by auto].
  destruct (_ ≫= _) as [gameText|]; [|by auto].
  destruct (JS.get "eventType" eventData) as [eventType|] eqn:Ht; [|by auto].
  destruct (JS.ToString eventType) as [typeText|]; [|by auto].
  cbv zeta. rewrite (Hother eventData eventType) by done.
  cbn [fst snd platform notes host]. split; [done|]. left. eauto.
Qed.

(** X9: for an event of type [playerMove] with a game id that has a text,
    [RoomEventRaised] logs one debug line and then does to the platform
    exactly what [processPlayerMove] does with the event data as payload.
    The verdict is dropped: the handler returns nothing whether the move
    was valid or not, and throws only what [processPlayerMove] throws. *)
Theorem X9_RoomEventRaised_player_move
    (args : option JSValue) (eventData : JSValue) (GameId : option JSValue)
    (gameText : string) (h : Host) :
  JS.get "Data" args = Some (Some eventData) →
  JS.get "eventType" (Some eventData) = Some (Some (JSString "playerMove")) →
  JS.get "GameId" args = Some GameId →
  JS.ToString GameId = Some gameText →
  let r := RoomEventRaised args h in
  platform r.2 = (processPlayerMove eventData (platform h)).2
  ∧ r.1 = match (processPlayerMove eventData (platform h)).1 with
          | Normal _ => Returned tt
          | Throw e => Raised (PlatformFailure e)
          end
  ∧ notes r.2
    = notes h ++ [NoteText Debug
                    ("Event Raised - Game: " +:+ gameText
                     +:+ " Event Type: playerMove")].
Proof.
  intros Hd Ht Hg Hgt. cbv zeta. rewrite RoomEventRaised_run.
  rewrite Hd, Hg, Ht. cbn [mbind option_bind]. rewrite Hgt.
  cbn [JS.ToString JS.toString JS.isString].
  rewrite bool_decide_eq_true_2 by done.
  cbv zeta.
  by destruct (processPlayerMove eventData (platform h)) as [[b|e] w].
Qed.

(** X10: without arguments, or with arguments whose [Data] is missing or
    [null], [RoomEventRaised] throws a TypeError before it logs or requests
    anything. *)
Theorem X10_RoomEventRaised_without_data (args : option JSValue) (h : Host) :
  (args = None ∨ args = Some JSNull
   ∨ JS.get "Data" args = Some None
   ∨ JS.get "Data" args = Some (Some JSNull)) →
  RoomEventRaised args h = (Raised TypeError, h).
Proof.
  intros H. rewrite RoomEventRaised_run.
  destruct H as [-> | [-> | [-> | ->]]]; try done.
  - by destruct (_ ≫= _).
  - by destruct (_ ≫= _).
Qed.

Lemma updatePlayerMove_run (args : JSValue) (w : World) :
  updatePlayerMove args w =
  (match (processPlayerMove args w).1 with
   | Normal validMove => Normal (JSObject [("validMove", JSBool validMove)])
   | Throw e => Throw e
   end, (processPlayerMove args w).2).
Proof.
  unfold updatePlayerMove. rewrite bind_run.
  by destruct (processPlayerMove args w) as [[b|e] w'].
Qed.

Lemma thrown_run (m : JSValue) (w : World) (e : Exception) :
  (processPlayerMove m w).1 = Throw e →
  ∃ c, e = ApiError c ∧ fails w c = true
       ∧ last (calls (processPlayerMove m w).2) = Some c.
Proof.
  rewrite processPlayerMove_run. cbv zeta.
  destruct (fails w (readRequest w)) eqn:E0;
    [|destruct (tooSoon w) eqn:E1;
      [|destruct (fails w (statisticsRequest w)) eqn:E2;
        [|destruct (fails w (statisticsWrite w)) eqn:E3;
          [|destruct (fails w (dataWrite m w)) eqn:E4]]]];
    cbn [fst snd]; intros [= <-] || intros [=];
    eexists; (split; [done|]); (split; [done|]); simpl; by rewrite last_snoc.
Qed.

(** X6: [updatePlayerMove] answers with an object whose [validMove] is
    [true] or [false].  With [false], the read of the timestamp is the only
    request made and data and statistics are unchanged.  With [true], the
    payload's text, the text of the current instant and the count of moves
    are stored.  An exception is the error of the last request made, which
    the platform refused. *)
Theorem X6_updatePlayerMove_answer (args : JSValue) (w : World) :
  let r := (updatePlayerMove args w).1 in
  let w' := (updatePlayerMove args w).2 in
  (∀ answer, r = Normal answer →
     answer = JSObject [("validMove", JSBool true)]
     ∨ answer = JSObject [("validMove", JSBool false)])
  ∧ (r = Normal (JSObject [("validMove", JSBool false)]) →
     callsSince w w' = [readRequest w]
     ∧ userInternalData w' = userInternalData w
     ∧ playerStatistics w' = playerStatistics w)
  ∧ (r = Normal (JSObject [("validMove", JSBool true)]) →
     lastMoveOf w' = Some (JSON_stringify args)
     ∧ lastMoveTimestampOf w' = Some (Date_toUTCString (clock w))
     ∧ movesMadeOf w' = Some (movesMadeToWrite w))
  ∧ (∀ e, r = Throw e →
     ∃ c, e = ApiError c ∧ fails w c = true ∧ last (calls w') = Some c).
Proof.
  cbv zeta. rewrite updatePlayerMove_run. cbn [fst snd].
  destruct (processPlayerMove args w).1 as [[|]|e] eqn:Hres.
  - split; [intros ? [= <-]; by left|]. split; [done|].
    split; [|done]. intros _.
    destruct (committed_run args w Hres) as [Hts Hmv].
    split; [done|]. split; [done|]. by apply committed_movesMade.
  - split; [intros ? [= <-]; by right|]. split; [|done]. intros _.
    apply result_false_iff in Hres as [Hread Hsoon].
    rewrite processPlayerMove_run. cbv zeta. rewrite Hread, Hsoon.
    cbn [snd]. split; [by apply callsSince_app|done].
  - split; [done|]. split; [done|]. split; [done|].
    intros e' [= <-]. by apply thrown_run.
Qed.


Lemma tryCatch_run {A} (body : Handler A) (recover : Failure → Handler A)
    (h : Host) :
  tryCatch body recover h =
  match body h with
  | (Raised ex, h') => recover ex h'
  | (Returned a, h') => (Returned a, h')
  end.
Proof. reflexivity. Qed.

Lemma ask_run (request : Request) (h : Host) :
  ask request h =
  (match replies h request with
   | ApiErrorCode errorCode => Raised (ApiFailure errorCode)
   | reply => Returned reply
   end, asking request h).
Proof. unfold ask, asking. by destruct (replies h request). Qed.

Lemma AddFriendToPlayer_run (args playerId friendId : option JSValue)
    (h : Host) :
  JS.get "playerId" args = Some playerId →
  JS.get "friendId" args = Some friendId →
  let request := AddFriend playerId friendId in
  AddFriendToPlayer args h =
  (match replies h request with
   | ApiErrorCode errorCode =>
       if (errorCode =? 1183) || (errorCode =? 1133)
       then Returned false
       else Raised
              (Thrown ("An error occurred calling AddFriend in "
                       +:+ "execFriendsOp.AddFriendToPlayer ("
                       +:+ JSON.numberString errorCode +:+ ")"))
   | _ => Returned true
   end, asking request h).
Proof.
  intros Hp Hf. cbv zeta. unfold AddFriendToPlayer.
  rewrite handler_bind_run, tryCatch_run.
  rewrite handler_bind_run. unfold property at 1. rewrite Hp.
  cbn [mret Handler_ret].
  rewrite handler_bind_run. unfold property at 1. rewrite Hf.
  cbn [mret Handler_ret].
  rewrite handler_bind_run, ask_run.
  destruct (replies h (AddFriend playerId friendId)) as [| |code];
    try done.
  rewrite handler_bind_run. cbn [apiErrorCode mret Handler_ret].
  by destruct ((code =? 1183) || (code =? 1133)).
Qed.

(** X18: without arguments [AddFriendToPlayer] throws a TypeError and
    requests nothing.  With arguments it makes one [AddFriend] request; it
    returns [true] when the platform carries it out, [false] when the
    platform answers with error 1183 or 1133, and on any other error throws
    a text that names the code.  It logs nothing and stores nothing. *)
Theorem X18_AddFriendToPlayer_codes (args : option JSValue) (h : Host) :
  (args = None ∨ args = Some JSNull →
   AddFriendToPlayer args h = (Raised TypeError, h))
  ∧ (∀ playerId friendId,
       JS.get "playerId" args = Some playerId →
       JS.get "friendId" args = Some friendId →
       let request := AddFriend playerId friendId in
       let r := AddFriendToPlayer args h in
       r.1 = match replies h request with
             | ApiErrorCode errorCode =>
                 if (errorCode =? 1183) || (errorCode =? 1133)
                 then Returned false
                 else Raised
                        (Thrown ("An error occurred calling AddFriend in "
                                 +:+ "execFriendsOp.AddFriendToPlayer ("
                                 +:+ JSON.numberString errorCode +:+ ")"))
             | _ => Returned true
             end
       ∧ asked r.2 = asked h ++ [request]
       ∧ platform r.2 = platform h
       ∧ notes r.2 = notes h).
Proof.
  split.
  - intros [-> | ->]; reflexivity.
  - intros playerId friendId Hp Hf. cbv zeta.
    by rewrite (AddFriendToPlayer_run args playerId friendId h Hp Hf).
Qed.

Lemma addMember_run (args context GroupId entityProfile : option JSValue)
    (h : Host) :
  JS.get "GroupId" args = Some GroupId →
  JS.get "currentEntity" context = Some entityProfile →
  addMember args context h =
  match JS.get "Entity" entityProfile with
  | Some Entity =>
      let h1 := asking (AddMembers GroupId Entity) h in
      match replies h (AddMembers GroupId Entity) with
      | ApiErrorCode errorCode =>
          (Returned false,
           host (platform h)
                (notes h ++ [NoteFailure Error (ApiFailure errorCode)]) h1)
      | _ => (Returned true, h1)
      end
  | None =>
      (Returned false,
       host (platform h) (notes h ++ [NoteFailure Error TypeError]) h)
  end.
Proof.
  intros Hg He. unfold addMember.
  rewrite handler_bind_run. unfold property at 1. rewrite Hg.
  cbn [mret Handler_ret].
  rewrite handler_bind_run. unfold property at 1. rewrite He.
  cbn [mret Handler_ret].
  rewrite handler_bind_run, tryCatch_run.
  rewrite handler_bind_run. unfold property at 1.
  destruct (JS.get "Entity" entityProfile) as [Entity|].
  - cbn [mret Handler_ret]. rewrite handler_bind_run, ask_run. cbv zeta.
    destruct (replies h (AddMembers GroupId Entity)) as [| |code];
      try done.
  - done.
Qed.

(** X19: once [args.GroupId] and [context.currentEntity] can be read,
    [addMember] always returns and stores nothing.  When the entity profile
    is [undefined] or [null] it requests nothing, logs the TypeError and
    returns [false]; otherwise it makes one [AddMembers] request and returns
    [false], with the error logged, exactly when the platform answers with
    an error. *)
Theorem X19_addMember_never_throws
    (args context GroupId entityProfile : option JSValue) (h : Host) :
  JS.get "GroupId" args = Some GroupId →
  JS.get "currentEntity" context = Some entityProfile →
  let r := addMember args context h in
  (∃ result, r.1 = Returned result)
  ∧ platform r.2 = platform h
  ∧ (JS.get "Entity" entityProfile = None →
     r.1 = Returned false
     ∧ asked r.2 = asked h
     ∧ notes r.2 = notes h ++ [NoteFailure Error TypeError])
  ∧ (∀ Entity, JS.get "Entity" entityProfile = Some Entity →
     asked r.2 = asked h ++ [AddMembers GroupId Entity]
     ∧ match replies h (AddMembers GroupId Entity) with
       | ApiErrorCode errorCode =>
           r.1 = Returned false
           ∧ notes r.2 = notes h ++ [NoteFailure Error (ApiFailure errorCode)]
       | _ => r.1 = Returned true ∧ notes r.2 = notes h
       end).
Proof.
  intros Hg He. cbv zeta.
  rewrite (addMember_run args context GroupId entityProfile h Hg He).
  destruct (JS.get "Entity" entityProfile) as [Entity|].
  - cbv zeta.
    destruct (replies h (AddMembers GroupId Entity)) as [| |code] eqn:Hr;
      cbn [fst snd];
      (split; [by eexists|]); (split; [done|]); (split; [done|]);
      intros ? [= <-]; by rewrite Hr.
  - cbn [fst snd]. split; [by eexists|]. done.
Qed.


(** The text that the loop of [GetOthersInv] builds. *)
Lemma GetOthersInv_run (args ID : option JSValue) (IDText : string)
    (PlayFabId : option string) (Inventory : list ItemInstance) (h : Host) :
  JS.get "ID" args = Some ID →
  JS.ToString ID = Some IDText →
  replies h (GetUserInventory ID) = InventoryOf PlayFabId Inventory →
  let Mystring :=
    foldl (λ Mystring item,
             if bool_decide (ItemClass item = Some "Inventory") then
               Some (textOrNull Mystring +:+ "#"
                     +:+ textOrUndefined (DisplayName item) +:+ " x"
                     +:+ textOrUndefined
                           (JSON.numberString <$> RemainingUses item)
                     +:+ "#")
             else Mystring)
          None Inventory in
  GetOthersInv args h =
  (Returned (JSObject [("messageValue",
                        match Mystring with
                        | Some s => JSString s
                        | None => JSNull
                        end)]),
   host (platform h)
     (notes h
      ++ [NoteText Debug ("PlayFabId:" +:+ IDText);
          NoteInventory Debug
            (textOrUndefined PlayFabId +:+ ": Inventory"
             +:+ JSON.numberString (Z.of_nat (length Inventory))) Inventory;
          NoteText Debug ("GetOthersInv:" +:+ textOrNull Mystring)])
     (asking (GetUserInventory ID) h)).
Proof.
  intros Hid Htext Hreply. cbv zeta. unfold GetOthersInv.
  rewrite handler_bind_run. unfold property at 1. rewrite Hid.
  cbn [mret Handler_ret].
  rewrite handler_bind_run. unfold text at 1. rewrite Htext.
  cbn [mret Handler_ret].
  rewrite handler_bind_run. unfold note at 1.
  rewrite handler_bind_run, ask_run.
  cbn [replies host]. rewrite Hreply.
  rewrite handler_bind_run. unfold note at 1.
  rewrite handler_bind_run. unfold note at 1.
  cbn [mret Handler_ret]. unfold host, asking.
  cbn [platform notes asked replies].
  by rewrite <- !app_assoc.
Qed.

Lemma Mystring_fold (items : list ItemInstance) (acc : option string) :
  let step := λ (Mystring : option string) (item : ItemInstance),
    if bool_decide (ItemClass item = Some "Inventory") then
      Some (textOrNull Mystring +:+ "#"
            +:+ textOrUndefined (DisplayName item) +:+ " x"
            +:+ textOrUndefined (JSON.numberString <$> RemainingUses item)
            +:+ "#")
    else Mystring in
  ((∀ item, item ∈ items → ItemClass item ≠ Some "Inventory") →
   foldl step acc items = acc)
  ∧ ((acc = None ∨ ∃ rest, acc = Some ("null#" +:+ rest)) →
     (∃ item, item ∈ items ∧ ItemClass item = Some "Inventory") →
     ∃ rest, foldl step acc items = Some ("null#" +:+ rest))
  ∧ ((∃ rest, acc = Some ("null#" +:+ rest)) →
     ∃ rest, foldl step acc items = Some ("null#" +:+ rest)).
Proof.
  cbv zeta. revert acc. induction items as [|x items IH]; intros acc.
  - split; [done|]. split; [|done]. intros _ (item & Hin & _).
    by apply elem_of_nil in Hin.
  - cbn [foldl].
    assert ((acc = None ∨ ∃ rest, acc = Some ("null#" +:+ rest)) →
            ∃ rest, Some (textOrNull acc +:+ "#"
                          +:+ textOrUndefined (DisplayName x) +:+ " x"
                          +:+ textOrUndefined
                                (JSON.numberString <$> RemainingUses x)
                          +:+ "#") = Some ("null#" +:+ rest)) as Hstep.
    { intros [-> | [rest ->]].
      - eexists. reflexivity.
      - exists (rest +:+ "#" +:+ textOrUndefined (DisplayName x) +:+ " x"
                +:+ textOrUndefined (JSON.numberString <$> RemainingUses x)
                +:+ "#").
        reflexivity. }
    destruct (bool_decide (ItemClass x = Some "Inventory")) eqn:Hx.
    + apply bool_decide_eq_true_1 in Hx.
      destruct (IH (Some (textOrNull acc +:+ "#"
                          +:+ textOrUndefined (DisplayName x) +:+ " x"
                          +:+ textOrUndefined
                                (JSON.numberString <$> RemainingUses x)
                          +:+ "#"))) as (_ & _ & IHkeep).
      split; [|split].
      * intros Hall. exfalso. apply (Hall x); [left|done].
      * intros Hacc _. apply IHkeep. by apply Hstep.
      * intros Hacc. apply IHkeep. apply Hstep. by right.
    + apply bool_decide_eq_false_1 in Hx.
      destruct (IH acc) as (IHnone & IHsome & IHkeep).
      split; [|split].
      * intros Hall. apply IHnone. intros item Hin. apply Hall. by right.
      * intros Hacc (item & Hin & Hclass). apply IHsome; [done|].
        exists item. split; [|done].
        apply elem_of_cons in Hin as [-> | Hin]; done.
      * apply IHkeep.
Qed.

(** X20: given an [ID] that has a text and the platform's answer with an
    inventory, [GetOthersInv] makes this one request and stores nothing.  It
    returns [messageValue: null] when no item is of class [Inventory], and
    otherwise a text that starts with [null#]: the text is built by adding
    to [null]. *)
Theorem X20_GetOthersInv_text (args ID : option JSValue) (IDText : string)
    (PlayFabId : option string) (Inventory : list ItemInstance) (h : Host) :
  JS.get "ID" args = Some ID →
  JS.ToString ID = Some IDText →
  replies h (GetUserInventory ID) = InventoryOf PlayFabId Inventory →
  let r := GetOthersInv args h in
  asked r.2 = asked h ++ [GetUserInventory ID]
  ∧ platform r.2 = platform h
  ∧ ((∀ item, item ∈ Inventory → ItemClass item ≠ Some "Inventory") →
     r.1 = Returned (JSObject [("messageValue", JSNull)]))
  ∧ ((∃ item, item ∈ Inventory ∧ ItemClass item = Some "Inventory") →
     ∃ rest,
       r.1 = Returned (JSObject [("messageValue",
                                  JSString ("null#" +:+ rest))])).
Proof.
  intros Hid Htext Hreply. cbv zeta.
  rewrite (GetOthersInv_run args ID IDText PlayFabId Inventory h
             Hid Htext Hreply).
  cbv zeta. cbn [fst snd]. split; [done|]. split; [done|].
  destruct (Mystring_fold Inventory None) as (Hnone & Hsome & _).
  split.
  - intros Hall. by rewrite (Hnone Hall).
  - intros Hex. destruct (Hsome (or_introl eq_refl) Hex) as [rest ->].
    by exists rest.
Qed.

(** X21: when the event of the context, or the event's [StatisticValue],
    is missing or [null], or the value has no text, [unlockHighSkillContent]
    throws a TypeError before it requests, stores or logs anything. *)
Theorem X21_unlock_without_statistic (context : option JSValue) (h : Host) :
  (JS.get "playStreamEvent" context = None
   ∨ ∃ event, JS.get "playStreamEvent" context = Some event
       ∧ (JS.get "StatisticValue" event = None
          ∨ ∃ value, JS.get "StatisticValue" event = Some value
              ∧ JS.callToString value = None)) →
  unlockHighSkillContent context h = (Raised TypeError, h).
Proof.
  intros Hmissing. unfold unlockHighSkillContent.
  rewrite handler_bind_run. unfold property at 1.
  destruct Hmissing as [-> | (event & -> & Hvalue)]; [done|].
  cbn [mret Handler_ret].
  rewrite handler_bind_run. unfold lift at 1. cbn [global platform notes host].
  rewrite handler_bind_run. unfold property at 1.
  destruct Hvalue as [-> | (value & -> & Htext)].
  - by destruct h.
  - cbn [mret Handler_ret]. rewrite handler_bind_run, Htext.
    by destruct h.
Qed.

End HandlerFacts.

Section HandlerReference.

#[local] Existing Instance reference_runtime.

(** X7: under the reference runtime, when a call of [updatePlayerMove] at
    instant [clock w] and the next call, at instant [now2], are both
    answered with [validMove: true], then [now2] is at least 15000 ms after
    the start of the second in which the first call was made, hence at
    least 14001 ms, and not always 15000 ms, after the first call. *)
Theorem X7_valid_moves_are_apart
    (args1 args2 : JSValue) (w : World) (now2 : Z) :
  0 <= clock w <= ES.maxTime →
  (updatePlayerMove args1 w).1
  = Normal (JSObject [("validMove", JSBool true)]) →
  (updatePlayerMove args2 (with_clock now2 (updatePlayerMove args1 w).2)).1
  = Normal (JSObject [("validMove", JSBool true)]) →
  15000 <= now2 - 1000 * (clock w / 1000) ∧ 14001 <= now2 - clock w.
Proof.
  intros Hnow. rewrite !updatePlayerMove_run. cbn [fst snd].
  destruct (processPlayerMove args1 w).1 as [[|]|e] eqn:H1; try discriminate.
  intros _.
  destruct (processPlayerMove args2 _).1 as [[|]|e] eqn:H2; try discriminate.
  intros _.
  destruct (committed_run args1 w H1) as [Hts _].
  pose proof (parse_toUTCString (clock w) Hnow) as Hparse.
  apply result_is_decision in H2.
  rewrite (tooSoon_time_value
             (with_clock now2 (processPlayerMove args1 w).2) _ _ Hts Hparse)
    in H2.
  change (clock (with_clock now2 _)) with now2 in H2.
  destruct (Z.ltb_spec (now2 - 1000 * (clock w / 1000)) 15000);
    [discriminate|].
  Z.div_mod_to_equations; lia.
Qed.

End HandlerReference.

(** * The handlers on concrete hosts *)
Section HandlerWitnesses.

#[local] Existing Instance reference_runtime.

(** Scenario 2: the rejected call made the read and nothing else. *)
Lemma X1_requests_in_order_witness :
  (processPlayerMove Scenario.move Scenario.earlyCall).1 = Normal false
  ∧ callsSince Scenario.earlyCall
      (processPlayerMove Scenario.move Scenario.earlyCall).2
    = [readRequest Scenario.earlyCall].
Proof.
  assert ((processPlayerMove Scenario.move Scenario.earlyCall).1
          = Normal false) as Hres by (by vm_compute).
  split; [exact Hres|].
  destruct (X1_requests_in_order Scenario.move Scenario.earlyCall)
    as (n & _ & Hrequests & _ & _ & Hfalse).
  rewrite Hrequests, (Hfalse Hres). reflexivity.
Defined.

(** Scenario 4: player Q and the level of player P after an accepted
    move. *)
Lemma X2_other_entries_untouched_witness :
  ("Q" ≠ currentPlayerId Scenario.lateCall ∧ "Level" ≠ "movesMade")
  ∧ dataOf (processPlayerMove Scenario.move Scenario.lateCall).2 "Q"
    = dataOf Scenario.lateCall "Q"
  ∧ statisticValue "Level"
      (statisticsOf (processPlayerMove Scenario.move Scenario.lateCall).2
         (currentPlayerId Scenario.lateCall))
    = Some 2.
Proof.
  assert ("Q" ≠ currentPlayerId Scenario.lateCall) as Hid by (by vm_compute).
  assert ("Level" ≠ "movesMade") as Hname by done.
  split; [by split|].
  destruct (X2_other_entries_untouched Scenario.move Scenario.lateCall)
    as (Hplayers & _ & Hnames).
  split; [exact (proj1 (Hplayers "Q" Hid))|].
  rewrite (Hnames "Level" Hname). by vm_compute.
Defined.

(** Scenario 2: the rejection is in the log. *)
Lemma X3_error_logged_iff_rejected_witness :
  (processPlayerMove Scenario.move Scenario.earlyCall).1 = Normal false
  ∧ ∃ entries message,
      logged (processPlayerMove Scenario.move Scenario.earlyCall).2
      = logged Scenario.earlyCall ++ entries
      ∧ LogError message ∈ entries.
Proof.
  assert ((processPlayerMove Scenario.move Scenario.earlyCall).1
          = Normal false) as Hres by (by vm_compute).
  split; [exact Hres|].
  destruct (X3_error_logged_iff_rejected Scenario.move Scenario.earlyCall)
    as (entries & Hlogged & Herror & _).
  destruct (proj2 Herror Hres) as [message Hin].
  exists entries, message. by split.
Defined.

(** Scenario 2, tried again at once with another payload. *)
Lemma X4_rejection_repeats_witness :
  (processPlayerMove Scenario.move Scenario.earlyCall).1 = Normal false
  ∧ (processPlayerMove Scenario.otherMove
       (processPlayerMove Scenario.move Scenario.earlyCall).2).1
    = Normal false.
Proof.
  assert ((processPlayerMove Scenario.move Scenario.earlyCall).1
          = Normal false) as Hres by (by vm_compute).
  split; [exact Hres|].
  exact (proj1 (X4_rejection_repeats Scenario.move Scenario.otherMove
                  Scenario.earlyCall Hres)).
Defined.

(** Scenario 4: five moves made, one stored. *)
Lemma X5_movesMade_written_is_one_witness :
  ((processPlayerMove Scenario.move Scenario.lateCall).1 = Normal true
   ∧ ∀ stat,
       stat ∈ statisticsOf Scenario.lateCall
                (currentPlayerId Scenario.lateCall) →
       StatisticName stat ≠ "")
  ∧ movesMadeOf Scenario.lateCall = Some 5
  ∧ movesMadeOf (processPlayerMove Scenario.move Scenario.lateCall).2
    = Some 1.
Proof.
  assert ((processPlayerMove Scenario.move Scenario.lateCall).1
          = Normal true) as Hres by (by vm_compute).
  assert (∀ stat,
            stat ∈ statisticsOf Scenario.lateCall
                     (currentPlayerId Scenario.lateCall) →
            StatisticName stat ≠ "") as Hnames.
  { assert (statisticsOf Scenario.lateCall (currentPlayerId Scenario.lateCall)
            = [ {| StatisticName := "Level"; Value := 2 |};
                {| StatisticName := "movesMade"; Value := 5 |} ]) as ->
      by (by vm_compute).
    intros stat Hin.
    apply elem_of_cons in Hin as [-> | Hin]; [done|].
    apply elem_of_cons in Hin as [-> | Hin]; [done|].
    by apply elem_of_nil in Hin. }
  split; [by split|]. split; [by vm_compute|].
  exact (X5_movesMade_written_is_one Scenario.move Scenario.lateCall
           Hres Hnames).
Defined.

(** Scenario 2 through the handler. *)
Lemma X6_updatePlayerMove_answer_witness :
  (updatePlayerMove Scenario.move Scenario.earlyCall).1
  = Normal (JSObject [("validMove", JSBool false)])
  ∧ callsSince Scenario.earlyCall
      (updatePlayerMove Scenario.move Scenario.earlyCall).2
    = [readRequest Scenario.earlyCall].
Proof.
  assert ((updatePlayerMove Scenario.move Scenario.earlyCall).1
          = Normal (JSObject [("validMove", JSBool false)])) as Hres
    by (by vm_compute).
  split; [exact Hres|].
  exact (proj1 (proj1 (proj2 (X6_updatePlayerMove_answer
                                Scenario.move Scenario.earlyCall)) Hres)).
Defined.

(** A first move 999 ms into a second and the next one 14001 ms later. *)
Lemma X7_valid_moves_are_apart_witness :
  (0 <= clock Scenario.lateInSecond <= ES.maxTime
   ∧ (updatePlayerMove Scenario.move Scenario.lateInSecond).1
     = Normal (JSObject [("validMove", JSBool true)])
   ∧ (updatePlayerMove Scenario.otherMove
        (with_clock Scenario.soonAfter
           (updatePlayerMove Scenario.move Scenario.lateInSecond).2)).1
     = Normal (JSObject [("validMove", JSBool true)]))
  ∧ Scenario.soonAfter - clock Scenario.lateInSecond = 14001
  ∧ 14001 <= Scenario.soonAfter - clock Scenario.lateInSecond.
Proof.
  assert (0 <= clock Scenario.lateInSecond <= ES.maxTime) as Hnow
    by (by vm_compute).
  assert ((updatePlayerMove Scenario.move Scenario.lateInSecond).1
          = Normal (JSObject [("validMove", JSBool true)])) as Hfirst
    by (by vm_compute).
  assert ((updatePlayerMove Scenario.otherMove
             (with_clock Scenario.soonAfter
                (updatePlayerMove Scenario.move Scenario.lateInSecond).2)).1
          = Normal (JSObject [("validMove", JSBool true)])) as Hsecond
    by (by vm_compute).
  split; [by repeat split|]. split; [by vm_compute|].
  exact (proj2 (X7_valid_moves_are_apart Scenario.move Scenario.otherMove
                  Scenario.lateInSecond Scenario.soonAfter
                  Hnow Hfirst Hsecond)).
Defined.

(** A chat line in a room. *)
Lemma X8_RoomEventRaised_other_events_witness :
  (∀ eventData eventType,
     JS.get "Data" Visit.chatEvent = Some eventData →
     JS.get "eventType" eventData = Some eventType →
     JS.isString "playerMove" eventType = false)
  ∧ platform (RoomEventRaised Visit.chatEvent
                (Visit.fresh Scenario.lateCall Visit.agrees)).2
    = Scenario.lateCall.
Proof.
  assert (∀ eventData eventType,
            JS.get "Data" Visit.chatEvent = Some eventData →
            JS.get "eventType" eventData = Some eventType →
            JS.isString "playerMove" eventType = false) as Hchat.
  { intros eventData eventType Hdata Htype.
    vm_compute in Hdata. injection Hdata as <-.
    vm_compute in Htype. injection Htype as <-.
    reflexivity. }
  split; [exact Hchat|].
  exact (proj1 (X8_RoomEventRaised_other_events Visit.chatEvent
                  (Visit.fresh Scenario.lateCall Visit.agrees) Hchat)).
Defined.

(** Scenario 1 as a room event. *)
Lemma X9_RoomEventRaised_player_move_witness :
  (JS.get "Data" Visit.moveEvent = Some (Some Visit.moveData)
   ∧ JS.get "eventType" (Some Visit.moveData)
     = Some (Some (JSString "playerMove"))
   ∧ JS.get "GameId" Visit.moveEvent = Some (Some (JSString "room-1"))
   ∧ JS.ToString (Some (JSString "room-1")) = Some "room-1")
  ∧ platform (RoomEventRaised Visit.moveEvent
                (Visit.fresh Scenario.firstCall Visit.agrees)).2
    = (processPlayerMove Visit.moveData Scenario.firstCall).2.
Proof.
  assert (JS.get "Data" Visit.moveEvent = Some (Some Visit.moveData))
    as Hdata by (by vm_compute).
  assert (JS.get "eventType" (Some Visit.moveData)
          = Some (Some (JSString "playerMove"))) as Htype by (by vm_compute).
  assert (JS.get "GameId" Visit.moveEvent = Some (Some (JSString "room-1")))
    as Hgame by (by vm_compute).
  split; [by repeat split|].
  exact (proj1 (X9_RoomEventRaised_player_move Visit.moveEvent Visit.moveData
                  (Some (JSString "room-1")) "room-1"
                  (Visit.fresh Scenario.firstCall Visit.agrees)
                  Hdata Htype Hgame eq_refl)).
Defined.

(** A room event without arguments. *)
Lemma X10_RoomEventRaised_without_data_witness :
  RoomEventRaised None (Visit.fresh Scenario.firstCall Visit.agrees)
  = (Raised TypeError, Visit.fresh Scenario.firstCall Visit.agrees).
Proof.
  exact (X10_RoomEventRaised_without_data None
           (Visit.fresh Scenario.firstCall Visit.agrees)
           (or_introl eq_refl)).
Defined.

(** The returning player completes the cave, seven monsters killed. *)
Lemma X11_completedLevel_stored_witness :
  reliable Scenario.lateCall
  ∧ (completedLevel "cave" 7
       (Visit.fresh Scenario.lateCall Visit.agrees)).1 = Returned tt
  ∧ dataOf
      (platform (completedLevel "cave" 7
                   (Visit.fresh Scenario.lateCall Visit.agrees)).2) "P"
      !! "lastLevelCompleted" = Some "cave".
Proof.
  assert (reliable Scenario.lateCall) as Hreliable
    by (by apply carriesOutAll_reliable).
  split; [exact Hreliable|].
  destruct (X11_completedLevel_stored "cave" 7
              (Visit.fresh Scenario.lateCall Visit.agrees) Hreliable)
    as (Hres & Hdata & _).
  by split.
Defined.

(** The same against a platform that refuses the data write. *)
Lemma X12_completedLevel_not_atomic_witness :
  fails Scenario.interruptedCall
    (ApiUpdateUserInternalData "P" [("lastLevelCompleted", "cave")]) = true
  ∧ (completedLevel "cave" 7
       (Visit.fresh Scenario.interruptedCall Visit.agrees)).1
    = Raised (PlatformFailure
                (ApiError (ApiUpdateUserInternalData "P"
                             [("lastLevelCompleted", "cave")]))).
Proof.
  split; [reflexivity|].
  exact (proj1 (proj1 (X12_completedLevel_not_atomic "cave" 7
                         (Visit.fresh Scenario.interruptedCall Visit.agrees))
                  eq_refl)).
Defined.

(** The returning player, whose level is 2 already. *)
Lemma X13_makeAPICall_idempotent_witness :
  reliable Scenario.lateCall
  ∧ (makeAPICall Scenario.lateCall).1 = Normal tt
  ∧ statisticValue "Level"
      (statisticsOf (makeAPICall Scenario.lateCall).2
         (currentPlayerId Scenario.lateCall)) = Some 2.
Proof.
  assert (reliable Scenario.lateCall) as Hreliable
    by (by apply carriesOutAll_reliable).
  split; [exact Hreliable|].
  destruct (X13_makeAPICall_idempotent Scenario.lateCall Hreliable)
    as (Hres & Hlevel & _).
  by split.
Defined.

(** Ann reaches 1200 points, and then [10^21]. *)
Lemma X14_unlock_stored_before_profile_witness :
  (JS.get "playStreamEvent" Visit.skillContext = Some Visit.skillEvent
   ∧ JS.get "StatisticValue" Visit.skillEvent = Some (Some (JSNum 1200))
   ∧ fails Scenario.firstCall
       (ApiUpdateUserInternalData "P"
          [ ("HighSkillContent", "true");
            ("XPAtHighSkillUnlock", JS.numberText 1200) ]) = false
   ∧ Z.abs 1200 < 2 ^ 53
   ∧ JS.get "playStreamEvent" Visit.hugeContext = Some Visit.hugeEvent
   ∧ JS.get "StatisticValue" Visit.hugeEvent
     = Some (Some (JSNum (10 ^ 21))))
  ∧ dataOf
      (platform (unlockHighSkillContent Visit.skillContext
                   (Visit.fresh Scenario.firstCall Visit.agrees)).2) "P"
      !! "XPAtHighSkillUnlock" = Some "1200"
  ∧ (unlockHighSkillContent Visit.skillContext
       (Visit.fresh Scenario.firstCall Visit.agrees)).1
    = Returned (JSObject [("profile", Visit.annProfile)])
  ∧ dataOf
      (platform (unlockHighSkillContent Visit.hugeContext
                   (Visit.fresh Scenario.firstCall Visit.agrees)).2) "P"
      !! "XPAtHighSkillUnlock" = Some "1e+21".
Proof.
  assert (JS.get "playStreamEvent" Visit.skillContext = Some Visit.skillEvent)
    as Hevent by (by vm_compute).
  assert (JS.get "StatisticValue" Visit.skillEvent
          = Some (Some (JSNum 1200))) as Hvalue by (by vm_compute).
  assert (Z.abs 1200 < 2 ^ 53) as Hsafe by (by vm_compute).
  assert (JS.get "playStreamEvent" Visit.hugeContext = Some Visit.hugeEvent)
    as Hhuge by (by vm_compute).
  assert (JS.get "StatisticValue" Visit.hugeEvent
          = Some (Some (JSNum (10 ^ 21)))) as Hhugevalue by (by vm_compute).
  assert (JS.numberText (10 ^ 21) = "1e+21") as Htext by (by vm_compute).
  split; [by repeat split|].
  destruct (X14_unlock_stored_before_profile Visit.skillContext
              Visit.skillEvent 1200
              (Visit.fresh Scenario.firstCall Visit.agrees)
              Hevent Hvalue eq_refl)
    as (_ & _ & _ & Hxp & _ & _ & Hprofile).
  destruct (X14_unlock_stored_before_profile Visit.hugeContext
              Visit.hugeEvent (10 ^ 21)
              (Visit.fresh Scenario.firstCall Visit.agrees)
              Hhuge Hhugevalue eq_refl)
    as (_ & _ & Hhugexp & _).
  split; [exact (Hxp Hsafe)|]. split.
  - apply (Hprofile Visit.annProfile "Ann"); by vm_compute.
  - rewrite <- Htext. exact Hhugexp.
Defined.

(** A player with 1200 points, and one without any. *)
Lemma X16_getPlayerStatistics_needs_XP_witness :
  (fails (Visit.experiencedPlayer Scenario.T0) (ApiGetPlayerStatistics "P")
   = false
   ∧ fails Scenario.lateCall (ApiGetPlayerStatistics "P") = false)
  ∧ (getPlayerStatistics
       (Visit.fresh (Visit.experiencedPlayer Scenario.T0) Visit.agrees)).1
    = Returned 1200
  ∧ (getPlayerStatistics (Visit.fresh Scenario.lateCall Visit.agrees)).1
    = Raised TypeError.
Proof.
  split; [by split|]. split.
  - exact (proj1 (X16_getPlayerStatistics_needs_XP
                    (Visit.fresh (Visit.experiencedPlayer Scenario.T0)
                       Visit.agrees) eq_refl)).
  - exact (proj1 (X16_getPlayerStatistics_needs_XP
                    (Visit.fresh Scenario.lateCall Visit.agrees) eq_refl)).
Defined.

(** A greeting with input 7. *)
Lemma X17_helloWorld_greets_witness :
  JS.get "inputValue" Visit.greeting = Some (Some (JSNum 7))
  ∧ ∃ input,
      notes (helloWorld Visit.greeting
               (Visit.fresh Scenario.firstCall Visit.agrees)).2
      = [NoteText Info "Hello P!";
         NoteObject Debug "helloWorld:" (JSObject [("input", input)])]
      ∧ input = JSNum 7.
Proof.
  assert (JS.get "inputValue" Visit.greeting = Some (Some (JSNum 7)))
    as Hinput by (by vm_compute).
  split; [exact Hinput|].
  destruct (X17_helloWorld_greets Visit.greeting
              (Visit.fresh Scenario.firstCall Visit.agrees))
    as (_ & _ & input & Hnotes & Hvalue & _).
  exists input. split; [exact Hnotes|].
  exact (Hvalue (Some (JSNum 7)) Hinput).
Defined.

(** Two players who are friends already. *)
Lemma X18_AddFriendToPlayer_codes_witness :
  (JS.get "playerId" Visit.friendship = Some (Some (JSString "P"))
   ∧ JS.get "friendId" Visit.friendship = Some (Some (JSString "Q")))
  ∧ (AddFriendToPlayer Visit.friendship
       (Visit.fresh Scenario.firstCall Visit.alreadyFriends)).1
    = Returned false.
Proof.
  assert (JS.get "playerId" Visit.friendship = Some (Some (JSString "P")))
    as Hplayer by (by vm_compute).
  assert (JS.get "friendId" Visit.friendship = Some (Some (JSString "Q")))
    as Hfriend by (by vm_compute).
  split; [by split|].
  exact (proj1 (proj2 (X18_AddFriendToPlayer_codes Visit.friendship
                         (Visit.fresh Scenario.firstCall Visit.alreadyFriends))
                  (Some (JSString "P")) (Some (JSString "Q"))
                  Hplayer Hfriend)).
Defined.

(** An entity joins group G. *)
Lemma X19_addMember_never_throws_witness :
  (JS.get "GroupId" Visit.joinGroup = Some (Some (JSString "G"))
   ∧ JS.get "currentEntity" Visit.memberContext
     = Some (Some (JSObject [("Entity", Visit.memberEntity)])))
  ∧ (addMember Visit.joinGroup Visit.memberContext
       (Visit.fresh Scenario.firstCall Visit.agrees)).1 = Returned true
  ∧ asked (addMember Visit.joinGroup Visit.memberContext
             (Visit.fresh Scenario.firstCall Visit.agrees)).2
    = [AddMembers (Some (JSString "G")) (Some Visit.memberEntity)].
Proof.
  assert (JS.get "GroupId" Visit.joinGroup = Some (Some (JSString "G")))
    as Hgroup by (by vm_compute).
  assert (JS.get "currentEntity" Visit.memberContext
          = Some (Some (JSObject [("Entity", Visit.memberEntity)])))
    as Hentity by (by vm_compute).
  split; [by split|].
  destruct (X19_addMember_never_throws Visit.joinGroup Visit.memberContext
              (Some (JSString "G"))
              (Some (JSObject [("Entity", Visit.memberEntity)]))
              (Visit.fresh Scenario.firstCall Visit.agrees) Hgroup Hentity)
    as (_ & _ & _ & Hasked).
  destruct (Hasked (Some Visit.memberEntity)) as [Hrequest Hres];
    [by vm_compute|].
  split; [exact (proj1 Hres)|exact Hrequest].
Defined.

(** The inventory of player Q: a badge and a sword. *)
Lemma X20_GetOthersInv_text_witness :
  (JS.get "ID" Visit.inventoryOfQ = Some (Some (JSString "Q"))
   ∧ JS.ToString (Some (JSString "Q")) = Some "Q"
   ∧ Visit.showsInventory (GetUserInventory (Some (JSString "Q")))
     = InventoryOf (Some "Q") [Visit.badge; Visit.sword]
   ∧ Visit.sword ∈ [Visit.badge; Visit.sword]
   ∧ ItemClass Visit.sword = Some "Inventory")
  ∧ ∃ rest,
      (GetOthersInv Visit.inventoryOfQ
         (Visit.fresh Scenario.firstCall Visit.showsInventory)).1
      = Returned (JSObject [("messageValue", JSString ("null#" +:+ rest))]).
Proof.
  assert (JS.get "ID" Visit.inventoryOfQ = Some (Some (JSString "Q")))
    as Hid by (by vm_compute).
  assert (Visit.sword ∈ [Visit.badge; Visit.sword]) as Hin
    by (right; left).
  split; [by repeat split|].
  apply (proj2 (proj2 (proj2 (X20_GetOthersInv_text Visit.inventoryOfQ
                                (Some (JSString "Q")) "Q" (Some "Q")
                                [Visit.badge; Visit.sword]
                                (Visit.fresh Scenario.firstCall
                                   Visit.showsInventory)
                                Hid eq_refl eq_refl)))).
  exists Visit.sword. by split.
Defined.

(** A context without an event. *)
Lemma X21_unlock_without_statistic_witness :
  JS.get "playStreamEvent" (Some (JSObject [])) = Some None
  ∧ JS.get "StatisticValue" None = None
  ∧ unlockHighSkillContent (Some (JSObject []))
      (Visit.fresh Scenario.firstCall Visit.agrees)
    = (Raised TypeError, Visit.fresh Scenario.firstCall Visit.agrees).
Proof.
  split; [reflexivity|]. split; [reflexivity|].
  apply X21_unlock_without_statistic.
  right. exists None. split; [reflexivity|]. by left.
Defined.

End HandlerWitnesses.
